(** * android/build.py: the build pipeline of py-androidbuild

    A shallow embedding of [android/build.py]: the artifact classes, the
    [PlatformTarget] stage methods, [get_platform], the helpers
    [recursive_glob] and [mkdir], and the [AndroidProject] facade.

    Python state (the filesystem, the clock, object identity, the heap of
    dict objects, the log of external tool runs) is threaded explicitly
    through a state-and-exception monad whose state survives a raised
    exception, as in Python.  [os.path] is [posixpath]. *)

From stdpp Require Import gmap strings list fin_maps sorting.
From Stdlib Require Import Ascii String ZArith.

Local Open Scope Z_scope.
Local Open Scope nat_scope.

(** ** Python strings *)

Module Str.

Definition slash : ascii := "/"%char.
Definition dquote : string := String (ascii_of_nat 34) "".

(** [s.startswith(p)] *)
Definition startswith (s p : string) : bool := String.prefix p s.

(** [s.endswith(p)]: [p] is [s] or ends the tail of [s]. *)
Fixpoint endswith (s p : string) : bool :=
  bool_decide (s = p)
  || match s with
     | "" => false
     | String _ s' => endswith s' p
     end.

(** [c in s] for a one-character [c] *)
Fixpoint contains (c : ascii) (s : string) : bool :=
  match s with
  | "" => false
  | String a s' => if decide (a = c) then true else contains c s'
  end.

(** [s.split(c)] for a one-character separator: never empty. *)
Fixpoint split (c : ascii) (s : string) : list string :=
  match s with
  | "" => [""]
  | String a s' =>
      if decide (a = c) then "" :: split c s'
      else match split c s' with
           | h :: t => String a h :: t
           | [] => [String a ""]
           end
  end.

(** [sep.join(l)] *)
Definition join (sep : string) (l : list string) : string :=
  String.concat sep l.

(** [s.rsplit(c, 1)]: cut at the last occurrence of [c], if any. *)
Definition rsplit1 (c : ascii) (s : string) : list string :=
  match split c s with
  | [] | [_] => [s]
  | parts => [join (String c "") (removelast parts); List.last parts ""]
  end.

(** [s.rstrip(c)] *)
Fixpoint rstrip (c : ascii) (s : string) : string :=
  match s with
  | "" => ""
  | String a s' =>
      match rstrip c s' with
      | "" => if decide (a = c) then "" else String a ""
      | r => String a r
      end
  end.

(** [s == c * len(s)] *)
Fixpoint all_char (c : ascii) (s : string) : bool :=
  match s with
  | "" => true
  | String a s' => if decide (a = c) then all_char c s' else false
  end.

(** [fnmatch.fnmatch(name, pat)] on a POSIX host, for patterns built
    from literal characters, [*] and [?]. *)
Fixpoint fnmatch_aux (pat : string) : string → bool :=
  match pat with
  | "" => fun name => bool_decide (name = "")
  | String p pat' =>
      if decide (p = "*"%char) then
        fix star (name : string) : bool :=
          fnmatch_aux pat' name ||
          match name with
          | "" => false
          | String _ name' => star name'
          end
      else fun name =>
        match name with
        | "" => false
        | String a name' =>
            (bool_decide (p = "?"%char) || bool_decide (a = p))
            && fnmatch_aux pat' name'
        end
  end.

Definition fnmatch (name pat : string) : bool := fnmatch_aux pat name.

(** [fnmatch.filter(names, pat)] *)
Definition fnmatch_filter (names : list string) (pat : string)
  : list string :=
  List.filter (fun n => fnmatch n pat) names.

End Str.

(** ** [posixpath] *)

Module path.

Definition isabs (p : string) : bool := Str.startswith p "/".

(** [path.join(a, b)] *)
Definition join (a b : string) : string :=
  if Str.startswith b "/" then b
  else if bool_decide (a = "") || Str.endswith a "/" then a +:+ b
  else a +:+ "/" +:+ b.

(** [path.join(a, b, c)] *)
Definition join3 (a b c : string) : string := join (join a b) c.

(** [p[:p.rfind('/') + 1]] *)
Fixpoint head_slice (p : string) : string :=
  match p with
  | "" => ""
  | String a p' =>
      if Str.contains Str.slash p then String a (head_slice p') else ""
  end.

(** [path.dirname(p)] *)
Definition dirname (p : string) : string :=
  let head := head_slice p in
  if negb (bool_decide (head = "")) && negb (Str.all_char Str.slash head)
  then Str.rstrip Str.slash head
  else head.

(** The loop body of [normpath]: [new_comps] after one component. *)
Definition normpath_step (initial_slashes : nat) (new_comps : list string)
    (comp : string) : list string :=
  if bool_decide (comp = "") || bool_decide (comp = ".") then new_comps
  else if negb (bool_decide (comp = ".."))
          || (bool_decide (initial_slashes = 0)
              && bool_decide (new_comps = []))
          || (negb (bool_decide (new_comps = []))
              && bool_decide (List.last new_comps "" = ".."))
  then new_comps ++ [comp]
  else removelast new_comps.

(** [path.normpath(p)] *)
Definition normpath (p : string) : string :=
  if bool_decide (p = "") then "."
  else
    let initial_slashes :=
      if Str.startswith p "/" then
        if Str.startswith p "//" && negb (Str.startswith p "///")
        then 2 else 1
      else 0 in
    let comps := Str.split Str.slash p in
    let new_comps := fold_left (normpath_step initial_slashes) comps [] in
    let p' := Str.join "/" new_comps in
    let p'' :=
      match initial_slashes with
      | 0 => p'
      | 1 => "/" +:+ p'
      | _ => "//" +:+ p'
      end in
    if bool_decide (p'' = "") then "." else p''.

(** [path.abspath(p)], with the current directory explicit. *)
Definition abspath (cwd p : string) : string :=
  if isabs p then normpath p else normpath (join cwd p).

End path.

Example split_ex : Str.split Str.slash "/a//b" = [""; "a"; ""; "b"].
Proof. reflexivity. Qed.
Example rsplit1_ex :
  Str.rsplit1 "-"%char "/sdk/platforms/android-10" = ["/sdk/platforms/android"; "10"].
Proof. reflexivity. Qed.
Example rsplit1_none : Str.rsplit1 "-"%char "/sdk/platforms/foo" = ["/sdk/platforms/foo"].
Proof. reflexivity. Qed.
Example dirname_ex : path.dirname "/p/AndroidManifest.xml" = "/p".
Proof. reflexivity. Qed.
Example dirname_root : path.dirname "/AndroidManifest.xml" = "/".
Proof. reflexivity. Qed.
Example normpath_ex : path.normpath "/a/./b/../c//d" = "/a/c/d".
Proof. reflexivity. Qed.
Example normpath_rel : path.normpath "../a/.." = "..".
Proof. reflexivity. Qed.
Example fnmatch_ex : Str.fnmatch "Foo.java" "*.java" = true
  /\ Str.fnmatch "Foo.javax" "*.java" = false.
Proof. split; reflexivity. Qed.
Example endswith_ex : Str.endswith "/sdk/" "/" = true
  /\ Str.endswith "/sdk" "/" = false /\ Str.endswith "" "" = true.
Proof. repeat split; reflexivity. Qed.
Example join_ex : path.join3 "/sdk/" "platforms" "android-9" = "/sdk/platforms/android-9".
Proof. reflexivity. Qed.

(** ** The world: filesystem, clock, objects, tool log *)

(** A filesystem entry.  The store is keyed by the path exactly as the
    program spells it when it calls the operating system. *)
Inductive node :=
  | File (content : string)
  | Dir.

Global Instance node_eq_dec : EqDecision node.
Proof. solve_decision. Defined.

(** Keyword arguments of an [Aapt] call. *)
Record AaptArgs := {
  aapt_command : string;
  aapt_make_dirs : option bool;
  aapt_manifest : string;
  aapt_resource_dir : string;
  aapt_r_output : option string;
  aapt_include : list string;
  aapt_apk_output : option string;
  aapt_configurations : option string;
  aapt_overwrite : option bool;
  aapt_asset_dir : option string;
}.

(** One run of an external tool: the wrapper object is identified by the
    executable it was built with, the rest are the Python arguments. *)
Inductive ToolCall :=
  | AaptCall (exe : string) (kw : AaptArgs)
  | AidlCall (exe filename preprocessed search_path output_folder : string)
  | JavaCCall (exe : string) (files : list string) (target : string)
      (debug : bool) (destdir bootclasspath : string)
  | DxCall (exe : string) (files : list string) (output : string)
  | ApkBuilderCall (exe outputfile : string) (dex : option string)
      (zips : option (list string))
  | JarSignerCall (exe file keystore alias password : string)
  | ZipAlignCall (exe infile outfile : string) (align : Z) (force : bool).

(** A reference to a dict object: the one default of
    [PlatformTarget.__init__], created when the function is defined and
    shared by every call that omits [custom_paths], or a dict on the heap. *)
Inductive dict_ref :=
  | DefaultPaths
  | DictLoc (l : nat).

Record World := {
  fs : gmap string node;
  cwd : string;
  (** what [time.time()] prints as under [%s], at each successive reading *)
  clock : nat → string;
  ticks : nat;
  default_custom_paths : gmap string string;
  dicts : gmap nat (gmap string string);
  next_oid : nat;
  (** external tool runs that returned, oldest first *)
  trace : list ToolCall;
}.

Definition set_fs (f : gmap string node) (w : World) : World :=
  {| fs := f; cwd := cwd w; clock := clock w; ticks := ticks w;
     default_custom_paths := default_custom_paths w; dicts := dicts w;
     next_oid := next_oid w; trace := trace w |}.

Definition set_ticks (n : nat) (w : World) : World :=
  {| fs := fs w; cwd := cwd w; clock := clock w; ticks := n;
     default_custom_paths := default_custom_paths w; dicts := dicts w;
     next_oid := next_oid w; trace := trace w |}.

Definition set_dicts (d : gmap nat (gmap string string)) (w : World) : World :=
  {| fs := fs w; cwd := cwd w; clock := clock w; ticks := ticks w;
     default_custom_paths := default_custom_paths w; dicts := d;
     next_oid := next_oid w; trace := trace w |}.

Definition set_next_oid (n : nat) (w : World) : World :=
  {| fs := fs w; cwd := cwd w; clock := clock w; ticks := ticks w;
     default_custom_paths := default_custom_paths w; dicts := dicts w;
     next_oid := n; trace := trace w |}.

Definition set_trace (t : list ToolCall) (w : World) : World :=
  {| fs := fs w; cwd := cwd w; clock := clock w; ticks := ticks w;
     default_custom_paths := default_custom_paths w; dicts := dicts w;
     next_oid := next_oid w; trace := t |}.

(** ** Exceptions and the monad *)

Inductive exn :=
  | ValueError (msg : string)
  | IndexError
  | KeyError (key : string)
  | TypeError
  | OSError (filename : string)
  | UnboundLocalError (var : string)
  | ToolError (call : ToolCall)
  | ParseError (filename : string).

Inductive res (A : Type) :=
  | Ok (a : A)
  | Raise (e : exn).
Arguments Ok {A} a.
Arguments Raise {A} e.

(** A computation returns or raises, and leaves a world behind either way. *)
Definition M (A : Type) : Type := World → res A * World.

Definition ret {A} (a : A) : M A := fun w => (Ok a, w).
Definition raise {A} (e : exn) : M A := fun w => (Raise e, w).
Definition bind {A B} (m : M A) (k : A → M B) : M B :=
  fun w =>
    match m w with
    | (Ok a, w') => k a w'
    | (Raise e, w') => (Raise e, w')
    end.
Definition gets {A} (f : World → A) : M A := fun w => (Ok (f w), w).
Definition modify (f : World → World) : M unit := fun w => (Ok tt, f w).

(** [try: m except KeyError: h] *)
Definition except_KeyError {A} (m : M A) (h : M A) : M A :=
  fun w =>
    match m w with
    | (Raise (KeyError _), w') => h w'
    | r => r
    end.

(** [for x in l: body x] *)
Fixpoint for_each {A} (l : list A) (body : A → M unit) : M unit :=
  match l with
  | [] => ret tt
  | x :: l' => bind (body x) (fun _ => for_each l' body)
  end.

Global Instance M_ret : MRet M := @ret.
Global Instance M_bind : MBind M := fun A B k m => bind m k.

(** ** The operating system *)

Module os.

(** The name of [k] inside directory [d], when [k] is an entry of [d]. *)
Definition child_name (d k : string) : option string :=
  let d' := if Str.endswith d "/" then d else d +:+ "/" in
  if Str.startswith k d' then
    let e := String.substring (String.length d')
               (String.length k - String.length d') k in
    if bool_decide (e = "") || Str.contains Str.slash e then None
    else Some e
  else None.

(** Is [k] strictly below directory [d]? *)
Definition below (d k : string) : bool :=
  let d' := if Str.endswith d "/" then d else d +:+ "/" in
  Str.startswith k d' && negb (bool_decide (k = d')).

Definition exists_ (f : gmap string node) (p : string) : bool :=
  bool_decide (is_Some (f !! p)).

Definition isdir_ (f : gmap string node) (p : string) : bool :=
  bool_decide (f !! p = Some Dir).

(** [path.exists(p)] *)
Definition path_exists (p : string) : M bool :=
  gets (fun w => exists_ (fs w) p).

(** [path.isdir(p)] *)
Definition path_isdir (p : string) : M bool :=
  gets (fun w => isdir_ (fs w) p).

Definition entries (f : gmap string node) (d : string) : list string :=
  omap (fun kv => child_name d kv.1) (map_to_list f).

(** [os.listdir(d)] *)
Definition listdir (d : string) : M (list string) :=
  fun w =>
    if isdir_ (fs w) d then (Ok (entries (fs w) d), w)
    else (Raise (OSError d), w).

(** Does the parent of [d] exist as a directory?  A path of one
    component lives in the current directory. *)
Definition parent_ok (f : gmap string node) (d : string) : bool :=
  let par := path.dirname d in
  bool_decide (par = "") || Str.all_char Str.slash par || isdir_ f par.

(** [os.mkdir(d)] *)
Definition mkdir (d : string) : M unit :=
  fun w =>
    if exists_ (fs w) d then (Raise (OSError d), w)
    else if parent_ok (fs w) d then (Ok tt, set_fs (<[d := Dir]> (fs w)) w)
    else (Raise (OSError d), w).

(** The directories named by the prefixes of a path, outermost first. *)
Fixpoint chain (acc : string) (comps : list string) : list string :=
  match comps with
  | [] => []
  | c :: comps' =>
      if bool_decide (c = "") then chain acc comps'
      else path.join acc c :: chain (path.join acc c) comps'
  end.

(** The proper ancestors of [d] within the store. *)
Definition ancestors (d : string) : list string :=
  match Str.split Str.slash d with
  | "" :: comps => chain "/" (removelast comps)
  | comps => chain "" (removelast comps)
  end.

Fixpoint makedirs_go (ps : list string) (f : gmap string node)
  : res (gmap string node) :=
  match ps with
  | [] => Ok f
  | p :: ps' =>
      match f !! p with
      | Some Dir => makedirs_go ps' f
      | Some (File _) => Raise (OSError p)
      | None => makedirs_go ps' (<[p := Dir]> f)
      end
  end.

(** [os.makedirs(d)]: creates the missing ancestors, then [d], which
    must not exist yet. *)
Definition makedirs (d : string) : M unit :=
  fun w =>
    match makedirs_go (ancestors d) (fs w) with
    | Ok f' =>
        if exists_ f' d then (Raise (OSError d), set_fs f' w)
        else (Ok tt, set_fs (<[d := Dir]> f') w)
    | Raise e => (Raise e, w)
    end.

(** [os.walk(top)]: one triple per directory at or below [top]; an
    unreadable [top] yields nothing. *)
Definition walk (top : string) : M (list (string * list string * list string)) :=
  gets (fun w =>
    let f := fs w in
    if isdir_ f top then
      let ds := top :: List.filter (fun k => below top k && isdir_ f k)
                         (map_to_list f).*1 in
      (fun d =>
         let names := entries f d in
         (d, List.filter (fun e => isdir_ f (path.join d e)) names,
             List.filter (fun e => negb (isdir_ f (path.join d e))) names))
      <$> ds
    else []).

(** [shutil.rmtree(d)] *)
Definition rmtree (d : string) : M unit :=
  fun w =>
    if isdir_ (fs w) d then
      (Ok tt,
       set_fs (filter (fun kv => kv.1 ≠ d ∧ ¬ below d kv.1) (fs w)) w)
    else (Raise (OSError d), w).

(** [os.rename(src, dst)] for a regular file [src]: replaces [dst]. *)
Definition rename (src dst : string) : M unit :=
  fun w =>
    match fs w !! src with
    | Some (File c) =>
        if isdir_ (fs w) dst then (Raise (OSError dst), w)
        else (Ok tt, set_fs (<[dst := File c]> (delete src (fs w))) w)
    | _ => (Raise (OSError src), w)
    end.

(** [time.time()], as printed by [%s] *)
Definition time : M string :=
  fun w => (Ok (clock w (ticks w)), set_ticks (S (ticks w)) w).

End os.

(** ** Python values and objects *)

(** [not x] for an optional string argument: [None] and [''] are false. *)
Definition truthy (x : option string) : bool :=
  match x with
  | Some s => negb (bool_decide (s = ""))
  | None => false
  end.

(** An argument that may be absent, a typed artifact or a raw path. *)
Inductive arg (A : Type) :=
  | ANone
  | AObj (a : A)
  | ARaw (s : string).
Arguments ANone {A}.
Arguments AObj {A} a.
Arguments ARaw {A} s.

(** [if x:] for such an argument: an object is always true. *)
Definition arg_truthy {A} (x : arg A) : bool :=
  match x with
  | ANone => false
  | AObj _ => true
  | ARaw s => negb (bool_decide (s = ""))
  end.

Module CodeObj.
(** Represents a .dex code file. *)
Record t := mk { filename : string }.
End CodeObj.

Module ResourceObj.
(** Represents a packed resource package. *)
Record t := mk { filename : string }.
End ResourceObj.

Module PlatformTarget.
(** A platform version of the SDK; the seven tool attributes hold the
    executable each tool wrapper was built with. *)
Record t := mk {
  version : string;
  sdk_dir : string;
  platform_dir : string;
  dx : string;
  aapt : string;
  aidl : string;
  zipalign : string;
  apkbuilder : string;
  javac : string;
  jarsigner : string;
  framework_library : string;
  framework_aidl : string;
}.
End PlatformTarget.

Module Apk.
(** Represents an APK file; [oid] is the identity of the instance. *)
Record t := mk {
  oid : nat;
  filename : string;
  platform : PlatformTarget.t;
}.
End Apk.

(** What [sign] and [align] accept: an [Apk] instance or a raw path. *)
Inductive pkg :=
  | PkgApk (a : Apk.t)
  | PkgPath (s : string).

(** [apk.filename if isinstance(apk, Apk) else apk] *)
Definition pkg_filename (apk : pkg) : string :=
  match apk with
  | PkgApk a => Apk.filename a
  | PkgPath s => s
  end.

Module AndroidProject.
(** An Android project; [code] is [None] while the instance has no
    [code] attribute. *)
Record t := mk {
  platform : PlatformTarget.t;
  manifest : string;
  resource_dir : string;
  gen_dir : string;
  source_dir : string;
  out_dir : string;
  asset_dir : string;
  name : string;
  code : option CodeObj.t;
}.

Definition set_code (c : CodeObj.t) (p : t) : t :=
  mk (platform p) (manifest p) (resource_dir p) (gen_dir p) (source_dir p)
     (out_dir p) (asset_dir p) (name p) (Some c).
End AndroidProject.

(** ** Dict objects *)

(** [dict(...)]: a new dict object. *)
Definition dict_new (d : gmap string string) : M nat :=
  fun w =>
    let l := fresh (dom (dicts w)) in
    (Ok l, set_dicts (<[l := d]> (dicts w)) w).

(** The contents of the dict behind a reference. *)
Definition dict_read (r : dict_ref) : M (gmap string string) :=
  fun w =>
    match r with
    | DefaultPaths => (Ok (default_custom_paths w), w)
    | DictLoc l =>
        match dicts w !! l with
        | Some d => (Ok d, w)
        | None => (Raise TypeError, w)
        end
    end.

(** [d.update(other)]: writes to [d] only. *)
Definition dict_update (l : nat) (other : dict_ref) : M unit :=
  o ← dict_read other;
  d ← dict_read (DictLoc l);
  modify (fun w => set_dicts (<[l := o ∪ d]> (dicts w)) w).

(** [d[k]] *)
Definition dict_getitem (l : nat) (k : string) : M string :=
  d ← dict_read (DictLoc l);
  match d !! k with
  | Some v => mret v
  | None => raise (KeyError k)
  end.

(** [dict(pairs)]: a later pair replaces an earlier one with its key. *)
Definition dict_of_pairs (pairs : list (string * string))
  : gmap string string :=
  fold_left (fun m kv => <[kv.1 := kv.2]> m) pairs ∅.

(** [sorted(d.keys())] *)
Definition sorted_keys (d : gmap string string) : list string :=
  merge_sort String.le (map_to_list d).*1.

(** ** The host *)

(** Modelled from the spec: the module [tools] (the wrappers [Aapt],
    [Aidl], [Dx], [ApkBuilder], [JavaC], [JarSigner], [ZipAlign]) is not
    part of the sources.  Each wrapper is a callable built from an
    executable path that runs the external process on the filesystem and
    raises when the process fails.  [run_tool] gives, for a call and a
    filesystem, whether the process succeeded and the filesystem it left. *)
Record Host := {
  sys_platform : string;
  run_tool : ToolCall → gmap string node → bool * gmap string node;
  (** the attributes of the root element of an XML document, when it parses *)
  xml_root_attrib : string → option (gmap string string);
}.

Section Build.

Variable host : Host.

(** Calling a tool wrapper. *)
Definition invoke (c : ToolCall) : M unit :=
  fun w =>
    let '(ok, f') := run_tool host c (fs w) in
    let w' := set_trace (trace w ++ [c]) (set_fs f' w) in
    if ok then (Ok tt, w') else (Raise (ToolError c), w').

(** [Apk(platform, filename)]: a new instance. *)
Definition Apk_new (platform : PlatformTarget.t) (filename : string)
  : M Apk.t :=
  fun w =>
    (Ok (Apk.mk (next_oid w) filename platform),
     set_next_oid (S (next_oid w)) w).

Definition recursive_glob (treeroot pattern : string) : M (list string) :=
  triples ← os.walk treeroot;
  mret (fold_left
          (fun results '(base, dirs, files) =>
             results ++ (path.join base <$> Str.fnmatch_filter files pattern))
          triples []).

Definition mkdir (directory : string) (recursive : bool) : M unit :=
  ex ← os.path_exists directory;
  if negb ex then
    if recursive then os.makedirs directory else os.mkdir directory
  else mret tt.

(** The paths [__init__] starts from, before [custom_paths]. *)
Definition default_paths (sdk_dir : string) : gmap string string :=
  let win32 := bool_decide (sys_platform host = "win32") in
  list_to_map [
    ("aapt", path.join3 sdk_dir "platform-tools"
               (if win32 then "aapt.exe" else "aapt"));
    ("aidl", path.join3 sdk_dir "platform-tools"
               (if win32 then "aidl.exe" else "aidl"));
    ("dx", path.join3 sdk_dir "platform-tools"
               (if win32 then "dx.bat" else "dx"));
    ("apkbuilder", path.join3 sdk_dir "tools"
               (if win32 then "apkbuilder.bat" else "apkbuilder"));
    ("zipalign", path.join3 sdk_dir "tools"
               (if win32 then "zipalign.exe" else "zipalign"));
    ("jarsigner", "jarsigner");
    ("javac", "javac")].

Definition PlatformTarget_init (version sdk_dir platform_dir : string)
    (custom_paths : dict_ref) : M PlatformTarget.t :=
  paths ← dict_new (default_paths sdk_dir);
  dict_update paths custom_paths;;
  dx ← dict_getitem paths "dx";
  aapt ← dict_getitem paths "aapt";
  aidl ← dict_getitem paths "aidl";
  zipalign ← dict_getitem paths "zipalign";
  apkbuilder ← dict_getitem paths "apkbuilder";
  javac ← dict_getitem paths "javac";
  jarsigner ← dict_getitem paths "jarsigner";
  mret (PlatformTarget.mk version sdk_dir platform_dir
          dx aapt aidl zipalign apkbuilder javac jarsigner
          (path.join platform_dir "android.jar")
          (path.join platform_dir "framework.aidl")).

Definition PlatformTarget_generate_r (self : PlatformTarget.t)
    (manifest resource_dir output_dir : string) : M unit :=
  mkdir output_dir false;;
  invoke (AaptCall (PlatformTarget.aapt self)
    {| aapt_command := "package";
       aapt_make_dirs := Some true;
       aapt_manifest := manifest;
       aapt_resource_dir := resource_dir;
       aapt_r_output := Some output_dir;
       aapt_include := [PlatformTarget.framework_library self];
       aapt_apk_output := None;
       aapt_configurations := None;
       aapt_overwrite := None;
       aapt_asset_dir := None |}).

Definition PlatformTarget_compile_aidl (self : PlatformTarget.t)
    (source_dir output_dir : string) : M unit :=
  filenames ← recursive_glob source_dir "*.aidl";
  for_each filenames (fun filename =>
    invoke (AidlCall (PlatformTarget.aidl self) filename
              (PlatformTarget.framework_aidl self) source_dir output_dir)).

(** The collecting loop of [compile_java]. *)
Fixpoint collect_java (source_dirs : list string) (files : list string)
  : M (list string) :=
  match source_dirs with
  | [] => mret files
  | directory :: rest =>
      found ← recursive_glob directory "*.java";
      collect_java rest (files ++ found)
  end.

Definition PlatformTarget_compile_java (self : PlatformTarget.t)
    (source_dirs : list string) (output_dir : string)
    (debug : bool) (target : string) : M unit :=
  files ← collect_java source_dirs [];
  mkdir output_dir true;;
  invoke (JavaCCall (PlatformTarget.javac self) files target debug
            output_dir (PlatformTarget.framework_library self)).

Definition PlatformTarget_dex (self : PlatformTarget.t)
    (source_dir output : string) : M CodeObj.t :=
  output ← gets (fun w => path.abspath (cwd w) output);
  invoke (DxCall (PlatformTarget.dx self) [source_dir] output);;
  mret (CodeObj.mk output).

(** [**kwargs] of [compile] are those of [compile_java], whose defaults
    are [debug=False] and [target='1.5']. *)
Definition PlatformTarget_compile (self : PlatformTarget.t)
    (dex_output manifest source_dir resource_dir source_gen_dir
       class_gen_dir : string)
    (debug : option bool) (target : option string) : M CodeObj.t :=
  PlatformTarget_generate_r self manifest resource_dir source_gen_dir;;
  PlatformTarget_compile_aidl self source_dir source_gen_dir;;
  PlatformTarget_compile_java self [source_dir; source_gen_dir]
    class_gen_dir (default false debug) (default "1.5" target);;
  PlatformTarget_dex self class_gen_dir dex_output.

Definition PlatformTarget_pack_resources (self : PlatformTarget.t)
    (manifest resource_dir : string) (asset_dir output : option string)
    (configurations : option string) : M ResourceObj.t :=
  output ← match output with
           | Some o => gets (fun w => path.abspath (cwd w) o)
           | None => raise TypeError
           end;
  let kwargs :=
    {| aapt_command := "package";
       aapt_make_dirs := None;
       aapt_manifest := manifest;
       aapt_resource_dir := resource_dir;
       aapt_r_output := None;
       aapt_include := [PlatformTarget.framework_library self];
       aapt_apk_output := Some output;
       aapt_configurations := configurations;
       aapt_overwrite := Some true;
       aapt_asset_dir := if truthy asset_dir then asset_dir else None |} in
  invoke (AaptCall (PlatformTarget.aapt self) kwargs);;
  mret (ResourceObj.mk output).

Definition PlatformTarget_build_apk (self : PlatformTarget.t)
    (output : string) (code : arg CodeObj.t)
    (resources : arg ResourceObj.t) : M Apk.t :=
  output ← gets (fun w => path.abspath (cwd w) output);
  let dex :=
    if arg_truthy code then
      match code with
      | AObj c => Some (CodeObj.filename c)
      | ARaw s => Some s
      | ANone => None
      end
    else None in
  let zips :=
    if arg_truthy resources then
      match resources with
      | AObj r => Some [ResourceObj.filename r]
      | ARaw s => Some [s]
      | ANone => None
      end
    else None in
  invoke (ApkBuilderCall (PlatformTarget.apkbuilder self) output dex zips);;
  Apk_new self output.

Definition PlatformTarget_sign (self : PlatformTarget.t) (apk : pkg)
    (keystore alias password : string) : M unit :=
  invoke (JarSignerCall (PlatformTarget.jarsigner self) (pkg_filename apk)
            keystore alias password).

(** The local [outfile] is bound only on the in-place path; reading it
    unbound raises. *)
Definition PlatformTarget_align (self : PlatformTarget.t) (apk : pkg)
    (output : option string) : M pkg :=
  let infile := pkg_filename apk in
  outfile ← (if negb (truthy output) then
               now ← os.time;
               mret (Some (infile +:+ ".align." +:+ now))
             else mret None);
  outfile ← match outfile with
            | Some o => mret o
            | None => raise (UnboundLocalError "outfile")
            end;
  invoke (ZipAlignCall (PlatformTarget.zipalign self) infile outfile
            4%Z true);;
  if negb (truthy output) then
    os.rename outfile infile;;
    mret apk
  else
    a ← Apk_new self outfile;
    mret (PkgApk a).

Definition Apk_sign (self : Apk.t) (keystore alias password : string)
  : M unit :=
  PlatformTarget_sign (Apk.platform self) (PkgApk self)
    keystore alias password.

Definition Apk_align (self : Apk.t) (output : option string) : M pkg :=
  PlatformTarget_align (Apk.platform self) (PkgApk self) output.

(** The first half of [get_platform]: the dict from version to
    platform directory. *)
Definition installed_platforms (sdk_path : string)
  : M (gmap string string) :=
  es ← os.listdir (path.join sdk_path "platforms");
  f ← gets fs;
  let platforms :=
    List.filter (os.isdir_ f)
      ((fun e => path.join3 sdk_path "platforms" e) <$> es) in
  pairs ← mapM (fun p =>
             match Str.rsplit1 "-"%char p !! 1 with
             | Some v => mret (v, p)
             | None => raise IndexError
             end) platforms;
  mret (dict_of_pairs pairs).

Definition get_platform (sdk_path : string) (target : option string)
  : M PlatformTarget.t :=
  platforms ← installed_platforms sdk_path;
  target ← (if negb (truthy target) then
              match last (sorted_keys platforms) with
              | Some t => mret t
              | None => raise IndexError
              end
            else mret (default "" target));
  target_root ←
    except_KeyError
      (match platforms !! target with
       | Some r => mret r
       | None => raise (KeyError target)
       end)
      (raise (ValueError ("target " +:+ Str.dquote +:+ target +:+ Str.dquote
                          +:+ " not found in " +:+ Str.dquote +:+ sdk_path
                          +:+ Str.dquote)));
  PlatformTarget_init target sdk_path target_root DefaultPaths.

Definition AndroidProject_init (manifest : string) (name : option string)
    (platform : option PlatformTarget.t) (sdk_dir target : option string)
  : M AndroidProject.t :=
  platform ← match platform with
             | Some p => mret p
             | None =>
                 if negb (truthy sdk_dir) then
                   raise (ValueError ("You need to provide the SDK path, "
                            +:+ "or a PlatformTarget instancen."))
                 else get_platform (default "" sdk_dir) target
             end;
  manifest ← gets (fun w => path.abspath (cwd w) manifest);
  let project_dir := path.dirname manifest in
  name ← (if negb (truthy name) then
            f ← gets fs;
            match f !! manifest with
            | Some (File content) =>
                match xml_root_attrib host content with
                | Some attrib =>
                    match attrib !! "package" with
                    | Some n => mret n
                    | None => raise (KeyError "package")
                    end
                | None => raise (ParseError manifest)
                end
            | _ => raise (OSError manifest)
            end
          else mret (default "" name));
  mret (AndroidProject.mk platform manifest
          (path.join project_dir "res")
          (path.join project_dir "gen")
          (path.join project_dir "src")
          (path.join project_dir "bin")
          (path.join project_dir "asset")
          name None).

(** Sets the [code] attribute; there is no [return]. *)
Definition AndroidProject_compile (self : AndroidProject.t)
  : M (option CodeObj.t * AndroidProject.t) :=
  c ← PlatformTarget_compile (AndroidProject.platform self)
        (path.join (AndroidProject.out_dir self) "classes.dex")
        (AndroidProject.manifest self)
        (AndroidProject.source_dir self)
        (AndroidProject.resource_dir self)
        (AndroidProject.gen_dir self)
        (path.join (AndroidProject.out_dir self) "classes")
        None None;
  mret (None, AndroidProject.set_code c self).

Definition AndroidProject_build (self : AndroidProject.t)
    (output config : option string) : M (Apk.t * AndroidProject.t) :=
  self ← match AndroidProject.code self with
         | None => r ← AndroidProject_compile self; mret r.2
         | Some _ => mret self
         end;
  let resource_filename :=
    if negb (truthy config) then
      path.join (AndroidProject.out_dir self)
        (AndroidProject.name self +:+ ".ap_")
    else
      path.join (AndroidProject.out_dir self)
        (AndroidProject.name self +:+ "." +:+ default "" config +:+ ".ap_") in
  ex ← os.path_exists (AndroidProject.asset_dir self);
  resources ← PlatformTarget_pack_resources (AndroidProject.platform self)
                (AndroidProject.manifest self)
                (AndroidProject.resource_dir self)
                (if ex : bool then Some (AndroidProject.asset_dir self) else None)
                (Some resource_filename) config;
  code ← match AndroidProject.code self with
         | Some c => mret c
         | None => raise TypeError
         end;
  apk ← PlatformTarget_build_apk (AndroidProject.platform self)
          (path.join (AndroidProject.out_dir self)
             (AndroidProject.name self +:+ ".apk"))
          (AObj code) (AObj resources);
  mret (apk, self).

(** Both tests look at [out_dir]. *)
Definition AndroidProject_clean (self : AndroidProject.t) : M unit :=
  ex ← os.path_exists (AndroidProject.out_dir self);
  (if ex : bool then os.rmtree (AndroidProject.out_dir self) else mret tt);;
  ex ← os.path_exists (AndroidProject.out_dir self);
  (if ex : bool then os.rmtree (AndroidProject.gen_dir self) else mret tt).

End Build.

(** ** A concrete host and project *)

Module Demo.

Definition write (p c : string) (f : gmap string node) : gmap string node :=
  <[p := File c]> f.

(** Tools that write their outputs; [zipalign] and [jarsigner] need
    their input file. *)
Definition tools (c : ToolCall) (f : gmap string node)
  : bool * gmap string node :=
  match c with
  | AaptCall _ kw =>
      match aapt_r_output kw, aapt_apk_output kw with
      | Some d, _ => (true, write (path.join d "R.java") "R" f)
      | None, Some o => (true, write o "resources" f)
      | None, None => (false, f)
      end
  | AidlCall _ filename _ _ output_folder =>
      (true, write (path.join output_folder "IStub.java") filename f)
  | JavaCCall _ files _ _ destdir _ =>
      (true, write (path.join destdir "Main.class") "class" f)
  | DxCall _ _ output => (true, write output "dex" f)
  | ApkBuilderCall _ outputfile _ _ => (true, write outputfile "apk" f)
  | JarSignerCall _ file _ _ _ =>
      match f !! file with
      | Some (File c) => (true, write file ("signed " +:+ c) f)
      | _ => (false, f)
      end
  | ZipAlignCall _ infile outfile _ _ =>
      match f !! infile with
      | Some (File c) => (true, write outfile ("aligned " +:+ c) f)
      | _ => (false, f)
      end
  end.

Definition host : Host :=
  {| sys_platform := "linux2";
     run_tool := tools;
     xml_root_attrib := fun c =>
       if bool_decide (c = "") then None
       else Some {[ "package" := c ]} |}.

Definition disk : gmap string node :=
  list_to_map [
    ("/sdk", Dir);
    ("/sdk/platforms", Dir);
    ("/sdk/platforms/android-8", Dir);
    ("/sdk/platforms/android-19", Dir);
    ("/sdk/platforms/README", File "text");
    ("/p", Dir);
    ("/p/AndroidManifest.xml", File "com.example.app");
    ("/p/res", Dir);
    ("/p/src", Dir);
    ("/p/src/Main.java", File "class Main {}");
    ("/p/src/IFoo.aidl", File "interface IFoo {}");
    ("/p/gen", Dir);
    ("/p/bin", Dir);
    ("/p/bin/app.apk", File "apk")].

Definition world : World :=
  {| fs := disk; cwd := "/p";
     clock := fun n => "1300000000." +:+ (if n is 0 then "25" else "5");
     ticks := 0;
     default_custom_paths := ∅; dicts := ∅; next_oid := 0; trace := [] |}.

Definition platform : PlatformTarget.t :=
  PlatformTarget.mk "19" "/sdk" "/sdk/platforms/android-19"
    "/sdk/platform-tools/dx" "/sdk/platform-tools/aapt"
    "/sdk/platform-tools/aidl" "/sdk/tools/zipalign"
    "/sdk/tools/apkbuilder" "javac" "jarsigner"
    "/sdk/platforms/android-19/android.jar"
    "/sdk/platforms/android-19/framework.aidl".

Definition project : AndroidProject.t :=
  AndroidProject.mk platform "/p/AndroidManifest.xml" "/p/res" "/p/gen"
    "/p/src" "/p/bin" "/p/asset" "com.example.app" None.

Definition apk : Apk.t := Apk.mk 7 "/p/bin/app.apk" platform.

End Demo.

(** * Properties *)

(** ** Running the monad *)

Lemma bind_run {A B} (m : M A) (k : A → M B) (w : World) :
  (m ≫= k) w =
  match m w with
  | (Ok a, w') => k a w'
  | (Raise e, w') => (Raise e, w')
  end.
Proof. reflexivity. Qed.

Lemma bind_Ok_inv {A B} (m : M A) (k : A → M B) w b w2 :
  (m ≫= k) w = (Ok b, w2) →
  ∃ a w1, m w = (Ok a, w1) ∧ k a w1 = (Ok b, w2).
Proof.
  rewrite bind_run. destruct (m w) as [[a|e] w1]; [eauto | discriminate].
Qed.

Lemma bind_Ok_run {A B} (m : M A) (k : A → M B) w a w1 :
  m w = (Ok a, w1) → (m ≫= k) w = k a w1.
Proof. intros E. by rewrite bind_run, E. Qed.

Lemma mret_run {A} (a : A) w : (mret a : M A) w = (Ok a, w).
Proof. reflexivity. Qed.

(** Splits [H : (m ≫= k) w = (Ok _, _)] into the run of [m] and the rest. *)
Ltac bind_inv H a w1 E :=
  apply bind_Ok_inv in H; destruct H as (a & w1 & E & H).

(** ** Alignment *)

(** C1. With any non-empty explicit output path, whatever the package
    (instance or raw path) and the world, [align] raises
    [UnboundLocalError] for its local [outfile] before any tool runs: the
    world is left as it was and no [Apk] is returned. *)
Theorem align_output_unbound (host : Host) (self : PlatformTarget.t)
    (apk : pkg) (a : ascii) (o : string) (w : World) :
  PlatformTarget_align host self apk (Some (String a o)) w
  = (Raise (UnboundLocalError "outfile"), w).
Proof. reflexivity. Qed.

Example align_output_demo :
  PlatformTarget_align Demo.host Demo.platform (PkgApk Demo.apk)
    (Some "/p/bin/app-aligned.apk") Demo.world
  = (Raise (UnboundLocalError "outfile"), Demo.world).
Proof. reflexivity. Qed.

(** What [align] relies on from the zipalign wrapper: a run that
    succeeds has read a regular input file, and its one effect is to
    write the output file. *)
Definition zipalign_contract (host : Host) : Prop :=
  ∀ exe infile outfile n force f f',
    run_tool host (ZipAlignCall exe infile outfile n force) f = (true, f') →
    ∃ c c', f !! infile = Some (File c) ∧ f' = <[outfile := File c']> f.

Lemma append_longer (s t : string) : t ≠ "" → s +:+ t ≠ s.
Proof.
  intros Ht E. induction s as [|a s IH]; simpl in E; [done|].
  apply IH. by injection E.
Qed.

Lemma rename_file_run (src dst c : string) (w : World) :
  fs w !! src = Some (File c) →
  os.isdir_ (fs w) dst = false →
  os.rename src dst w
  = (Ok tt, set_fs (<[dst := File c]> (delete src (fs w))) w).
Proof. intros Hs Hd. unfold os.rename. by rewrite Hs, Hd. Qed.

(** C3. Aligning with no output path ([None] or the empty string), when
    the zipalign run succeeds: the one tool run writes
    [<infile>.align.<time>], that file is then renamed over the
    original, the argument itself is returned, the original path holds
    the aligned file, the temporary path is gone and every other path is
    as before. *)
Theorem align_in_place (host : Host) (self : PlatformTarget.t) (apk : pkg)
    (output : option string) (w : World) (f1 : gmap string node) :
  let infile := pkg_filename apk in
  let outfile := infile +:+ ".align." +:+ clock w (ticks w) in
  let call := ZipAlignCall (PlatformTarget.zipalign self) infile outfile
                4%Z true in
  zipalign_contract host →
  truthy output = false →
  run_tool host call (fs w) = (true, f1) →
  ∃ w', PlatformTarget_align host self apk output w = (Ok apk, w')
    ∧ trace w' = trace w ++ [call]
    ∧ (∃ c, f1 !! outfile = Some (File c) ∧ fs w' !! infile = Some (File c))
    ∧ fs w' !! outfile = None
    ∧ (∀ p, p ≠ infile → p ≠ outfile → fs w' !! p = fs w !! p).
Proof.
  intros infile outfile call Hc Hout Hrun.
  destruct (Hc _ _ _ _ _ _ _ Hrun) as (c & c' & Hin & ->).
  assert (Hne : outfile ≠ infile) by (by apply append_longer).
  unfold PlatformTarget_align. rewrite Hout. simpl negb. cbv iota.
  rewrite !bind_run. unfold os.time. rewrite mret_run. rewrite !bind_run.
  rewrite mret_run. fold infile. fold outfile. fold call.
  rewrite bind_run. unfold invoke. simpl fs. rewrite Hrun.
  rewrite bind_run. erewrite rename_file_run; cycle 1.
  { simpl. apply lookup_insert_eq. }
  { simpl. unfold os.isdir_. apply bool_decide_eq_false.
    rewrite lookup_insert_ne by done. by rewrite Hin. }
  rewrite mret_run. eexists. split; [reflexivity|]. simpl.
  repeat split.
  - exists c'. rewrite !lookup_insert_eq. done.
  - rewrite lookup_insert_ne by done. apply lookup_delete_eq.
  - intros p H1 H2. rewrite lookup_insert_ne by done.
    rewrite lookup_delete_ne by done. by rewrite lookup_insert_ne.
Qed.

Lemma demo_zipalign_contract : zipalign_contract Demo.host.
Proof.
  intros exe infile outfile n force f f'. simpl.
  destruct (f !! infile) as [[c|]|] eqn:E; intros [=]; subst; eauto.
Qed.

Lemma align_in_place_witness :
  ∃ w', PlatformTarget_align Demo.host Demo.platform (PkgApk Demo.apk) None
          Demo.world = (Ok (PkgApk Demo.apk), w')
    ∧ fs w' !! "/p/bin/app.apk" = Some (File "aligned apk")
    ∧ fs w' !! "/p/bin/app.apk.align.1300000000.25" = None.
Proof.
  destruct (align_in_place Demo.host Demo.platform (PkgApk Demo.apk) None
              Demo.world
              (Demo.write "/p/bin/app.apk.align.1300000000.25" "aligned apk"
                 Demo.disk)
              demo_zipalign_contract eq_refl eq_refl)
    as (w' & Hrun & _ & (c & Hc & Hin) & Hout & _).
  exists w'. split; [exact Hrun|]. split; [|exact Hout].
  vm_compute in Hc. injection Hc as <-. exact Hin.
Defined.

(** ** Cleaning *)

Lemma rmtree_lookup_self (d : string) (w : World) :
  os.exists_ (fs (os.rmtree d w).2) d = os.exists_ (fs w) d
                                        && negb (os.isdir_ (fs w) d).
Proof.
  unfold os.rmtree. destruct (os.isdir_ (fs w) d) eqn:E; simpl.
  - rewrite andb_false_r. apply bool_decide_eq_false. intros [x Hx].
    apply map_lookup_filter_Some in Hx as [_ [Hx _]]. by apply Hx.
  - by rewrite andb_true_r.
Qed.

Lemma rmtree_lookup_outside (d p : string) (w : World) :
  p ≠ d → os.below d p = false →
  fs (os.rmtree d w).2 !! p = fs w !! p.
Proof.
  intros Hne Hb. unfold os.rmtree.
  destruct (os.isdir_ (fs w) d); simpl; [|done].
  destruct (fs w !! p) as [x|] eqn:E.
  - apply map_lookup_filter_Some. split; [done|]. simpl. split; [done|].
    rewrite Hb. auto.
  - apply map_lookup_filter_None. left. done.
Qed.

(** Whatever is on disk, [clean] leaves the generated-source directory
    alone: once the first test-and-remove is over, the output directory
    is gone or [rmtree] has raised. *)
Lemma clean_never_removes_gen_dir (p : AndroidProject.t) (w : World) :
  AndroidProject.gen_dir p ≠ AndroidProject.out_dir p →
  os.below (AndroidProject.out_dir p) (AndroidProject.gen_dir p) = false →
  fs (AndroidProject_clean p w).2 !! AndroidProject.gen_dir p
  = fs w !! AndroidProject.gen_dir p.
Proof.
  intros Hne Hb. unfold AndroidProject_clean.
  rewrite bind_run. unfold os.path_exists at 1, gets at 1.
  destruct (os.exists_ (fs w) (AndroidProject.out_dir p)) eqn:Ex.
  - rewrite bind_run.
    pose proof (rmtree_lookup_self (AndroidProject.out_dir p) w) as Hs.
    pose proof (rmtree_lookup_outside (AndroidProject.out_dir p)
                  (AndroidProject.gen_dir p) w Hne Hb) as Ho.
    destruct (os.rmtree (AndroidProject.out_dir p) w) as [[[]|e] w1] eqn:Er;
      simpl in Hs, Ho; [|done].
    rewrite bind_run. unfold os.path_exists, gets.
    assert (os.exists_ (fs w1) (AndroidProject.out_dir p) = false) as ->.
    { rewrite Hs, Ex. unfold os.rmtree in Er.
      destruct (os.isdir_ (fs w) (AndroidProject.out_dir p)); [done|].
      discriminate. }
    done.
  - rewrite bind_run, mret_run, bind_run.
    unfold os.path_exists, gets. by rewrite Ex.
Qed.

(** C2. On a disk where both [bin] and [gen] are present, [clean]
    returns normally having removed [bin] and everything below it, and
    [gen] is still there. *)
Theorem clean_leaves_gen_dir :
  os.exists_ Demo.disk (AndroidProject.out_dir Demo.project) = true
  ∧ os.exists_ Demo.disk (AndroidProject.gen_dir Demo.project) = true
  ∧ (AndroidProject_clean Demo.project Demo.world).1 = Ok tt
  ∧ fs (AndroidProject_clean Demo.project Demo.world).2 !! "/p/bin" = None
  ∧ fs (AndroidProject_clean Demo.project Demo.world).2 !! "/p/gen"
    = Some Dir.
Proof. vm_compute. done. Qed.

(** ** The tool log *)

(** What a step leaves alone apart from the disk and the log. *)
Definition same_log (w w' : World) : Prop :=
  trace w' = trace w ∧ cwd w' = cwd w.

Lemma mkdir_same_log (host : Host) (d : string) (r : bool) (w : World) :
  same_log w (mkdir d r w).2.
Proof.
  unfold mkdir. rewrite bind_run. unfold os.path_exists, gets.
  destruct (os.exists_ (fs w) d); simpl; [done|].
  destruct r.
  - unfold os.makedirs. destruct (os.makedirs_go _ _); [|done].
    by destruct (os.exists_ _ _).
  - unfold os.mkdir. destruct (os.exists_ _ _); [done|].
    by destruct (os.parent_ok _ _).
Qed.

Lemma recursive_glob_run (treeroot pattern : string) (w : World) :
  ∃ l, recursive_glob treeroot pattern w = (Ok l, w).
Proof. unfold recursive_glob. rewrite bind_run. simpl. eauto. Qed.

Lemma collect_java_run (source_dirs files : list string) (w : World) :
  ∃ l, collect_java source_dirs files w = (Ok l, w).
Proof.
  revert files. induction source_dirs as [|d ds IH]; intros files; simpl.
  - eauto.
  - destruct (recursive_glob_run d "*.java" w) as [l E].
    rewrite (bind_Ok_run _ _ _ _ _ E). apply IH.
Qed.

Lemma invoke_Ok (host : Host) (c : ToolCall) (w w' : World) (u : unit) :
  invoke host c w = (Ok u, w') →
  trace w' = trace w ++ [c] ∧ cwd w' = cwd w
  ∧ run_tool host c (fs w) = (true, fs w').
Proof.
  unfold invoke. destruct (run_tool host c (fs w)) as [[] f'];
    intros [= <- <-]; done.
Qed.

Lemma for_each_invoke_Ok (host : Host) {A} (g : A → ToolCall) (l : list A)
    (w w' : World) (u : unit) :
  for_each l (fun x => invoke host (g x)) w = (Ok u, w') →
  trace w' = trace w ++ (g <$> l) ∧ cwd w' = cwd w.
Proof.
  revert w. induction l as [|x l IH]; intros w; simpl.
  - intros [= <- <-]. by rewrite app_nil_r.
  - intros H. apply bind_Ok_inv in H as (a & w1 & E & H).
    apply invoke_Ok in E as (Et & Ec & _). apply IH in H as [Ht Hc].
    rewrite Ht, Et, Hc, Ec, <- app_assoc. done.
Qed.

(** The keyword arguments [generate_r] passes to aapt. *)
Definition generate_r_args (self : PlatformTarget.t)
    (manifest resource_dir output_dir : string) : AaptArgs :=
  {| aapt_command := "package";
     aapt_make_dirs := Some true;
     aapt_manifest := manifest;
     aapt_resource_dir := resource_dir;
     aapt_r_output := Some output_dir;
     aapt_include := [PlatformTarget.framework_library self];
     aapt_apk_output := None;
     aapt_configurations := None;
     aapt_overwrite := None;
     aapt_asset_dir := None |}.

Lemma generate_r_Ok (host : Host) self manifest resource_dir output_dir
    (w w' : World) (u : unit) :
  PlatformTarget_generate_r host self manifest resource_dir output_dir w
  = (Ok u, w') →
  trace w' = trace w
    ++ [AaptCall (PlatformTarget.aapt self)
          (generate_r_args self manifest resource_dir output_dir)]
  ∧ cwd w' = cwd w.
Proof.
  unfold PlatformTarget_generate_r. intros H.
  apply bind_Ok_inv in H as (a & w1 & E & H).
  pose proof (mkdir_same_log host output_dir false w) as [Ht Hc].
  rewrite E in Ht, Hc. simpl in Ht, Hc.
  apply invoke_Ok in H as (Ht' & Hc' & _).
  rewrite Ht', Hc', Ht, Hc. done.
Qed.

Lemma compile_aidl_Ok (host : Host) self source_dir output_dir
    (w w' : World) (u : unit) :
  PlatformTarget_compile_aidl host self source_dir output_dir w
  = (Ok u, w') →
  ∃ files, recursive_glob source_dir "*.aidl" w = (Ok files, w)
    ∧ trace w' = trace w
        ++ ((fun filename =>
               AidlCall (PlatformTarget.aidl self) filename
                 (PlatformTarget.framework_aidl self) source_dir output_dir)
            <$> files)
    ∧ cwd w' = cwd w.
Proof.
  unfold PlatformTarget_compile_aidl. intros H.
  destruct (recursive_glob_run source_dir "*.aidl" w) as [files E].
  rewrite (bind_Ok_run _ _ _ _ _ E) in H.
  apply for_each_invoke_Ok in H as [Ht Hc]. eauto.
Qed.

Lemma compile_java_Ok (host : Host) self source_dirs output_dir debug target
    (w w' : World) (u : unit) :
  PlatformTarget_compile_java host self source_dirs output_dir debug target w
  = (Ok u, w') →
  ∃ files, collect_java source_dirs [] w = (Ok files, w)
    ∧ trace w' = trace w
        ++ [JavaCCall (PlatformTarget.javac self) files target debug
              output_dir (PlatformTarget.framework_library self)]
    ∧ cwd w' = cwd w.
Proof.
  unfold PlatformTarget_compile_java. intros H.
  destruct (collect_java_run source_dirs [] w) as [files E].
  rewrite (bind_Ok_run _ _ _ _ _ E) in H.
  apply bind_Ok_inv in H as (a & w1 & Em & H).
  pose proof (mkdir_same_log host output_dir true w) as [Ht Hc].
  rewrite Em in Ht, Hc. simpl in Ht, Hc.
  apply invoke_Ok in H as (Ht' & Hc' & _).
  exists files. rewrite Ht', Hc', Ht, Hc. done.
Qed.

Lemma dex_Ok (host : Host) self source_dir output (w w' : World) code :
  PlatformTarget_dex host self source_dir output w = (Ok code, w') →
  code = CodeObj.mk (path.abspath (cwd w) output)
  ∧ trace w' = trace w
      ++ [DxCall (PlatformTarget.dx self) [source_dir]
            (path.abspath (cwd w) output)]
  ∧ cwd w' = cwd w.
Proof.
  unfold PlatformTarget_dex. intros H.
  apply bind_Ok_inv in H as (o & w1 & E & H).
  unfold gets in E. injection E as <- <-.
  apply bind_Ok_inv in H as (a & w1 & E & H).
  apply invoke_Ok in E as (Ht & Hc & _).
  injection H as <- <-. done.
Qed.

(** ** The composite compile *)

(** C7. A [compile] that returns has run, in this order and nothing
    else: aapt for the resource ids, aidl once per [*.aidl] file found
    under the source directory, javac once over the [*.java] files found
    under the source directory followed by those under the
    generated-source directory (as they are after the first two stages),
    and dx; its value is the [CodeObj] that [dex] returned, for the
    absolute dex path. *)
Theorem compile_stage_order (host : Host) (self : PlatformTarget.t)
    (dex_output manifest source_dir resource_dir source_gen_dir
       class_gen_dir : string)
    (debug : option bool) (target : option string)
    (w w' : World) (code : CodeObj.t) :
  PlatformTarget_compile host self dex_output manifest source_dir
    resource_dir source_gen_dir class_gen_dir debug target w = (Ok code, w') →
  ∃ w1 w2 w3 aidl_files java_src java_gen,
    PlatformTarget_generate_r host self manifest resource_dir source_gen_dir w
      = (Ok tt, w1)
    ∧ PlatformTarget_compile_aidl host self source_dir source_gen_dir w1
      = (Ok tt, w2)
    ∧ PlatformTarget_compile_java host self [source_dir; source_gen_dir]
        class_gen_dir (default false debug) (default "1.5" target) w2
      = (Ok tt, w3)
    ∧ PlatformTarget_dex host self class_gen_dir dex_output w3 = (Ok code, w')
    ∧ recursive_glob source_dir "*.aidl" w1 = (Ok aidl_files, w1)
    ∧ recursive_glob source_dir "*.java" w2 = (Ok java_src, w2)
    ∧ recursive_glob source_gen_dir "*.java" w2 = (Ok java_gen, w2)
    ∧ trace w' = trace w
        ++ [AaptCall (PlatformTarget.aapt self)
              (generate_r_args self manifest resource_dir source_gen_dir)]
        ++ ((fun filename =>
               AidlCall (PlatformTarget.aidl self) filename
                 (PlatformTarget.framework_aidl self) source_dir
                 source_gen_dir) <$> aidl_files)
        ++ [JavaCCall (PlatformTarget.javac self) (java_src ++ java_gen)
              (default "1.5" target) (default false debug) class_gen_dir
              (PlatformTarget.framework_library self);
            DxCall (PlatformTarget.dx self) [class_gen_dir]
              (path.abspath (cwd w) dex_output)]
    ∧ code = CodeObj.mk (path.abspath (cwd w) dex_output).
Proof.
  unfold PlatformTarget_compile. intros H.
  apply bind_Ok_inv in H as ([] & w1 & E1 & H).
  apply bind_Ok_inv in H as ([] & w2 & E2 & H).
  apply bind_Ok_inv in H as ([] & w3 & E3 & H).
  destruct (generate_r_Ok _ _ _ _ _ _ _ _ E1) as [T1 C1].
  destruct (compile_aidl_Ok _ _ _ _ _ _ _ E2) as (aidl_files & G2 & T2 & C2).
  destruct (compile_java_Ok _ _ _ _ _ _ _ _ _ E3) as (files & G3 & T3 & C3).
  destruct (dex_Ok _ _ _ _ _ _ _ H) as (-> & T4 & C4).
  destruct (recursive_glob_run source_dir "*.java" w2) as [java_src Gs].
  destruct (recursive_glob_run source_gen_dir "*.java" w2) as [java_gen Gg].
  assert (files = java_src ++ java_gen) as ->.
  { simpl in G3. rewrite (bind_Ok_run _ _ _ _ _ Gs) in G3.
    rewrite (bind_Ok_run _ _ _ _ _ Gg) in G3. by injection G3. }
  exists w1, w2, w3, aidl_files, java_src, java_gen.
  repeat split; try done.
  - rewrite T4, T3, T2, T1. rewrite C3, C2, C1.
    rewrite <- !app_assoc. done.
  - by rewrite C3, C2, C1.
Qed.

Lemma compile_stage_order_witness :
  ∃ w', PlatformTarget_compile Demo.host Demo.platform "/p/bin/classes.dex"
          "/p/AndroidManifest.xml" "/p/src" "/p/res" "/p/gen"
          "/p/bin/classes" None None Demo.world
        = (Ok (CodeObj.mk "/p/bin/classes.dex"), w')
    ∧ ∃ a b c d, trace w' = [AaptCall "/sdk/platform-tools/aapt" a; b; c; d].
Proof.
  set (r := PlatformTarget_compile Demo.host Demo.platform
              "/p/bin/classes.dex" "/p/AndroidManifest.xml" "/p/src" "/p/res"
              "/p/gen" "/p/bin/classes" None None Demo.world).
  assert (H : r = (Ok (CodeObj.mk "/p/bin/classes.dex"), r.2))
    by (vm_compute; reflexivity).
  exists r.2. split; [exact H|].
  destruct (compile_stage_order _ _ _ _ _ _ _ _ _ _ _ _ _ H)
    as (w1 & w2 & w3 & aidl_files & java_src & java_gen & E1 & _ & _ & _
        & Ha & _ & _ & Ht & _).
  assert (E1' : w1 = (PlatformTarget_generate_r Demo.host Demo.platform
                        "/p/AndroidManifest.xml" "/p/res" "/p/gen"
                        Demo.world).2) by (by rewrite E1).
  rewrite E1' in Ha. vm_compute in Ha. injection Ha as <-.
  do 4 eexists. etransitivity; [exact Ht|]. reflexivity.
Defined.

(** ** The project facade *)

(** C9. [AndroidProject.compile] returns [None]; the artifact that the
    platform's composite compile returned (which does return it) is left
    in the project's [code] attribute, the rest of the project being as
    before. *)
Theorem project_compile_returns_None (host : Host) (self self' : AndroidProject.t)
    (w w' : World) (v : option CodeObj.t) :
  AndroidProject_compile host self w = (Ok (v, self'), w') →
  v = None
  ∧ ∃ c, PlatformTarget_compile host (AndroidProject.platform self)
           (path.join (AndroidProject.out_dir self) "classes.dex")
           (AndroidProject.manifest self) (AndroidProject.source_dir self)
           (AndroidProject.resource_dir self) (AndroidProject.gen_dir self)
           (path.join (AndroidProject.out_dir self) "classes") None None w
         = (Ok c, w')
      ∧ AndroidProject.code self' = Some c
      ∧ self' = AndroidProject.set_code c self.
Proof.
  unfold AndroidProject_compile. intros H.
  apply bind_Ok_inv in H as (c & w1 & E & H).
  injection H as <- <- <-. split; [done|]. exists c. done.
Qed.

Lemma project_compile_returns_None_witness :
  ∃ self' w',
    AndroidProject_compile Demo.host Demo.project Demo.world
    = (Ok (None, self'), w')
    ∧ AndroidProject.code self' = Some (CodeObj.mk "/p/bin/classes.dex").
Proof.
  set (r := AndroidProject_compile Demo.host Demo.project Demo.world).
  set (c := CodeObj.mk "/p/bin/classes.dex").
  assert (H : r = (Ok (None, AndroidProject.set_code c Demo.project), r.2))
    by (vm_compute; reflexivity).
  exists (AndroidProject.set_code c Demo.project), r.2.
  split; [exact H|].
  destruct (project_compile_returns_None _ _ _ _ _ _ H) as (_ & c' & _ & _ & _).
  reflexivity.
Defined.

(** The keyword arguments [pack_resources] passes to aapt. *)
Definition pack_resources_args (self : PlatformTarget.t)
    (manifest resource_dir : string) (asset_dir : option string)
    (output : string) (configurations : option string) : AaptArgs :=
  {| aapt_command := "package";
     aapt_make_dirs := None;
     aapt_manifest := manifest;
     aapt_resource_dir := resource_dir;
     aapt_r_output := None;
     aapt_include := [PlatformTarget.framework_library self];
     aapt_apk_output := Some output;
     aapt_configurations := configurations;
     aapt_overwrite := Some true;
     aapt_asset_dir := if truthy asset_dir then asset_dir else None |}.

Lemma pack_resources_Ok (host : Host) self manifest resource_dir asset_dir
    output configurations (w w' : World) (r : ResourceObj.t) :
  PlatformTarget_pack_resources host self manifest resource_dir asset_dir
    (Some output) configurations w = (Ok r, w') →
  r = ResourceObj.mk (path.abspath (cwd w) output)
  ∧ trace w' = trace w
      ++ [AaptCall (PlatformTarget.aapt self)
            (pack_resources_args self manifest resource_dir asset_dir
               (path.abspath (cwd w) output) configurations)]
  ∧ cwd w' = cwd w.
Proof.
  unfold PlatformTarget_pack_resources. intros H.
  apply bind_Ok_inv in H as (o & w1 & E & H).
  unfold gets in E. injection E as <- <-.
  apply bind_Ok_inv in H as (a & w1 & E & H).
  apply invoke_Ok in E as (Ht & Hc & _).
  injection H as <- <-. done.
Qed.

Lemma build_apk_Ok (host : Host) self output (c : CodeObj.t)
    (r : ResourceObj.t) (w w' : World) (apk : Apk.t) :
  PlatformTarget_build_apk host self output (AObj c) (AObj r) w
  = (Ok apk, w') →
  Apk.filename apk = path.abspath (cwd w) output
  ∧ Apk.platform apk = self
  ∧ trace w' = trace w
      ++ [ApkBuilderCall (PlatformTarget.apkbuilder self)
            (path.abspath (cwd w) output) (Some (CodeObj.filename c))
            (Some [ResourceObj.filename r])]
  ∧ cwd w' = cwd w.
Proof.
  unfold PlatformTarget_build_apk. intros H.
  apply bind_Ok_inv in H as (o & w1 & E & H).
  unfold gets in E. injection E as <- <-.
  apply bind_Ok_inv in H as (a & w1 & E & H).
  apply invoke_Ok in E as (Ht & Hc & Hr).
  unfold Apk_new in H. injection H as <- <-. done.
Qed.

(** The resource archive [build] asks for. *)
Definition resource_filename (self : AndroidProject.t)
    (config : option string) : string :=
  if negb (truthy config) then
    path.join (AndroidProject.out_dir self)
      (AndroidProject.name self +:+ ".ap_")
  else
    path.join (AndroidProject.out_dir self)
      (AndroidProject.name self +:+ "." +:+ default "" config +:+ ".ap_").

(** What a [build] that returns has done: a compile exactly when the
    project had no [code] attribute, then one aapt run for the resource
    archive and one apkbuilder run for the package. *)
Lemma build_Ok (host : Host) (self self' : AndroidProject.t)
    (output config : option string) (w w' : World) (apk : Apk.t) :
  AndroidProject_build host self output config w = (Ok (apk, self'), w') →
  ∃ w0 c,
    ((AndroidProject.code self = None
      ∧ AndroidProject_compile host self w = (Ok (None, self'), w0))
     ∨ (is_Some (AndroidProject.code self) ∧ self' = self ∧ w0 = w))
    ∧ AndroidProject.code self' = Some c
    ∧ AndroidProject.out_dir self' = AndroidProject.out_dir self
    ∧ AndroidProject.name self' = AndroidProject.name self
    ∧ cwd w0 = cwd w
    ∧ Apk.filename apk
      = path.abspath (cwd w)
          (path.join (AndroidProject.out_dir self)
             (AndroidProject.name self +:+ ".apk"))
    ∧ ∃ kw,
        aapt_apk_output kw
          = Some (path.abspath (cwd w) (resource_filename self config))
        ∧ aapt_configurations kw = config
        ∧ trace w' = trace w0
          ++ [AaptCall (PlatformTarget.aapt (AndroidProject.platform self)) kw;
              ApkBuilderCall
                (PlatformTarget.apkbuilder (AndroidProject.platform self))
                (Apk.filename apk) (Some (CodeObj.filename c))
                (Some [path.abspath (cwd w) (resource_filename self config)])].
Proof.
  unfold AndroidProject_build. intros H.
  apply bind_Ok_inv in H as (self0 & w0 & E0 & H).
  assert (Hpre :
    ((AndroidProject.code self = None
      ∧ AndroidProject_compile host self w = (Ok (None, self0), w0))
     ∨ (is_Some (AndroidProject.code self) ∧ self0 = self ∧ w0 = w))
    ∧ AndroidProject.platform self0 = AndroidProject.platform self
    ∧ AndroidProject.out_dir self0 = AndroidProject.out_dir self
    ∧ AndroidProject.name self0 = AndroidProject.name self
    ∧ cwd w0 = cwd w).
  { destruct (AndroidProject.code self) as [c0|] eqn:Ec.
    - injection E0 as <- <-. split; [right; eauto|done].
    - apply bind_Ok_inv in E0 as ([v s] & w1 & E1 & E0).
      injection E0 as <- <-. simpl.
      destruct (project_compile_returns_None _ _ _ _ _ _ E1)
        as (-> & c & Hc & _ & ->).
      split; [left; done|]. repeat split.
      apply compile_stage_order in Hc.
      destruct Hc as (w1' & w2 & w3 & ? & ? & ? & G1 & G2 & G3 & G4 & _).
      apply generate_r_Ok in G1 as [_ C1].
      apply compile_aidl_Ok in G2 as (? & _ & _ & C2).
      apply compile_java_Ok in G3 as (? & _ & _ & C3).
      apply dex_Ok in G4 as (_ & _ & C4). congruence. }
  destruct Hpre as (Hpre & Hp & Ho & Hn & Hcwd).
  apply bind_Ok_inv in H as (ex & w1 & E1 & H).
  unfold os.path_exists, gets in E1. injection E1 as <- <-.
  apply bind_Ok_inv in H as (r & w1 & E1 & H).
  apply pack_resources_Ok in E1 as (-> & T1 & C1).
  apply bind_Ok_inv in H as (c & w2 & E2 & H).
  destruct (AndroidProject.code self0) as [c'|] eqn:Ec; [|discriminate].
  injection E2 as <- <-.
  apply bind_Ok_inv in H as (a & w3 & E3 & H).
  apply build_apk_Ok in E3 as (F3 & _ & T3 & C3).
  injection H as <- <- <-.
  exists w0, c'. rewrite F3, C1, Hcwd, Ho, Hn, Hp in *.
  repeat split; try done.
  eexists. repeat split; cycle 2.
  - rewrite T3, T1, <- app_assoc. reflexivity.
  - reflexivity.
  - reflexivity.
Qed.

(** ** Caching of the compiled code *)

Definition is_javac (c : ToolCall) : bool :=
  match c with
  | JavaCCall _ _ _ _ _ _ => true
  | _ => false
  end.

(** How often the Java compiler has been run. *)
Definition count_javac (t : list ToolCall) : nat :=
  List.length (List.filter is_javac t).

Lemma count_javac_app (t1 t2 : list ToolCall) :
  count_javac (t1 ++ t2) = count_javac t1 + count_javac t2.
Proof. unfold count_javac. by rewrite List.filter_app, List.length_app. Qed.

Lemma count_javac_aidl {A} (g : A → ToolCall) (l : list A) :
  (∀ x, is_javac (g x) = false) → count_javac (g <$> l) = 0.
Proof.
  intros Hg. unfold count_javac. induction l as [|x l IH]; simpl; [done|].
  by rewrite Hg.
Qed.

Lemma project_compile_javac (host : Host) (self self' : AndroidProject.t)
    (w w' : World) (v : option CodeObj.t) :
  AndroidProject_compile host self w = (Ok (v, self'), w') →
  count_javac (trace w') = count_javac (trace w) + 1
  ∧ is_Some (AndroidProject.code self').
Proof.
  intros H. apply project_compile_returns_None in H as (_ & c & H & Hc & _).
  split; [|eauto].
  apply compile_stage_order in H
    as (? & ? & ? & aidl_files & ? & ? & _ & _ & _ & _ & _ & _ & _ & -> & _).
  rewrite !count_javac_app, count_javac_aidl by done.
  unfold count_javac. simpl. lia.
Qed.

Lemma build_cached_javac (host : Host) (self self' : AndroidProject.t)
    (output config : option string) (w w' : World) (apk : Apk.t) :
  is_Some (AndroidProject.code self) →
  AndroidProject_build host self output config w = (Ok (apk, self'), w') →
  count_javac (trace w') = count_javac (trace w) ∧ self' = self.
Proof.
  intros [c0 Hc0] H.
  apply build_Ok in H
    as (w0 & c & [[Hn _]|(_ & -> & ->)] & _ & _ & _ & _ & _ & kw & _ & _ & ->).
  { congruence. }
  rewrite count_javac_app. unfold count_javac. simpl. split; [lia|done].
Qed.

(** What a [build] that returns has done on a project that holds a
    [code]: no compile, one aapt run for the archive and one apkbuilder
    run that packages the held [code]; the project is as before. *)
Lemma build_cached_trace (host : Host) (self self' : AndroidProject.t)
    (output config : option string) (w w' : World) (apk : Apk.t)
    (c : CodeObj.t) :
  AndroidProject.code self = Some c →
  AndroidProject_build host self output config w = (Ok (apk, self'), w') →
  self' = self
  ∧ ∃ kw,
      aapt_apk_output kw
        = Some (path.abspath (cwd w) (resource_filename self config))
      ∧ aapt_configurations kw = config
      ∧ trace w' = trace w
        ++ [AaptCall (PlatformTarget.aapt (AndroidProject.platform self)) kw;
            ApkBuilderCall
              (PlatformTarget.apkbuilder (AndroidProject.platform self))
              (Apk.filename apk) (Some (CodeObj.filename c))
              (Some [path.abspath (cwd w) (resource_filename self config)])].
Proof.
  intros Hc H.
  apply build_Ok in H
    as (w0 & c' & [[Hn _]|(_ & -> & ->)] & Hc' & _ & _ & _ & _ & kw & Hk & Hkc
        & Ht); [congruence|].
  split; [done|]. exists kw. rewrite Hc in Hc'. injection Hc' as <-. done.
Qed.

(** C6. On one project, once [compile()] has returned with the
    artifact [c] of the platform's composite compile in [code]: when a
    second [compile()] returns, javac has been run twice; when instead
    two [build()] calls return, javac has been run once, each build has
    run nothing but aapt for the archive and apkbuilder on the dex file
    of [c], and the project still holds [c]. *)
Theorem compile_twice_vs_build_twice (host : Host)
    (self self1 : AndroidProject.t) (w w1 : World) (v1 : option CodeObj.t) :
  AndroidProject_compile host self w = (Ok (v1, self1), w1) →
  ∃ c,
    AndroidProject.code self1 = Some c
    ∧ PlatformTarget_compile host (AndroidProject.platform self)
        (path.join (AndroidProject.out_dir self) "classes.dex")
        (AndroidProject.manifest self) (AndroidProject.source_dir self)
        (AndroidProject.resource_dir self) (AndroidProject.gen_dir self)
        (path.join (AndroidProject.out_dir self) "classes") None None w
      = (Ok c, w1)
    ∧ (∀ v2 self2 w2,
         AndroidProject_compile host self1 w1 = (Ok (v2, self2), w2) →
         count_javac (trace w2) = count_javac (trace w) + 2)
    ∧ (∀ output config output' config' apk self2 w2 apk' self3 w3,
         AndroidProject_build host self1 output config w1
           = (Ok (apk, self2), w2) →
         AndroidProject_build host self2 output' config' w2
           = (Ok (apk', self3), w3) →
         count_javac (trace w3) = count_javac (trace w) + 1
         ∧ AndroidProject.code self3 = AndroidProject.code self1
         ∧ self2 = self1 ∧ self3 = self1
         ∧ ∃ kw kw' zips zips',
             trace w2 = trace w1
               ++ [AaptCall
                     (PlatformTarget.aapt (AndroidProject.platform self1)) kw;
                   ApkBuilderCall
                     (PlatformTarget.apkbuilder
                        (AndroidProject.platform self1))
                     (Apk.filename apk) (Some (CodeObj.filename c)) zips]
             ∧ trace w3 = trace w2
               ++ [AaptCall
                     (PlatformTarget.aapt (AndroidProject.platform self1)) kw';
                   ApkBuilderCall
                     (PlatformTarget.apkbuilder
                        (AndroidProject.platform self1))
                     (Apk.filename apk') (Some (CodeObj.filename c)) zips']).
Proof.
  intros H1.
  destruct (project_compile_returns_None _ _ _ _ _ _ H1)
    as (_ & c & Hplat & Hcode & _).
  apply project_compile_javac in H1 as [T1 Hc1].
  exists c. split; [done|]. split; [done|]. split.
  - intros v2 self2 w2 H2. apply project_compile_javac in H2 as [T2 _]. lia.
  - intros output config output' config' apk self2 w2 apk' self3 w3 H2 H3.
    destruct (build_cached_trace _ _ _ _ _ _ _ _ _ Hcode H2)
      as (-> & kw & _ & _ & Ht2).
    destruct (build_cached_trace _ _ _ _ _ _ _ _ _ Hcode H3)
      as (-> & kw' & _ & _ & Ht3).
    split.
    { rewrite Ht3, Ht2, !count_javac_app, T1. unfold count_javac. simpl.
      lia. }
    split; [done|]. split; [done|]. split; [done|].
    exists kw, kw'. eexists _, _. split; [exact Ht2|exact Ht3].
Qed.

Lemma compile_twice_vs_build_twice_witness :
  let r1 := AndroidProject_compile Demo.host Demo.project Demo.world in
  let p1 := AndroidProject.set_code (CodeObj.mk "/p/bin/classes.dex")
              Demo.project in
  let r2 := AndroidProject_compile Demo.host p1 r1.2 in
  let b2 := AndroidProject_build Demo.host p1 None None r1.2 in
  let b3 := AndroidProject_build Demo.host p1 None (Some "de") b2.2 in
  r1.1 = Ok (None, p1)
  ∧ count_javac (trace r2.2) = 2
  ∧ count_javac (trace b3.2) = 1.
Proof.
  intros r1 p1 r2 b2 b3.
  assert (H1 : r1 = (Ok (None, p1), r1.2)) by (vm_compute; reflexivity).
  assert (H2 : r2 = (Ok (None, p1), r2.2)) by (vm_compute; reflexivity).
  assert (B2 : ∃ a, b2 = (Ok (a, p1), b2.2))
    by (eexists; vm_compute; reflexivity).
  assert (B3 : ∃ a, b3 = (Ok (a, p1), b3.2))
    by (eexists; vm_compute; reflexivity).
  destruct B2 as [a2 B2], B3 as [a3 B3].
  destruct (compile_twice_vs_build_twice _ _ _ _ _ _ H1)
    as (c & _ & _ & Hc & Hb).
  split; [by rewrite H1|]. split.
  - exact (Hc _ _ _ H2).
  - pose proof (Hb None None None (Some "de") a2 p1 b2.2 a3 p1 b3.2 B2 B3)
      as [Hcount _].
    exact Hcount.
Defined.

(** ** Construction of a platform *)

(** The platform whose tools are read off a path table. *)
Definition platform_of_paths (paths : gmap string string)
    (version sdk_dir platform_dir : string) : PlatformTarget.t :=
  PlatformTarget.mk version sdk_dir platform_dir
    (default "" (paths !! "dx")) (default "" (paths !! "aapt"))
    (default "" (paths !! "aidl")) (default "" (paths !! "zipalign"))
    (default "" (paths !! "apkbuilder")) (default "" (paths !! "javac"))
    (default "" (paths !! "jarsigner"))
    (path.join platform_dir "android.jar")
    (path.join platform_dir "framework.aidl").

Lemma dict_read_world (r : dict_ref) (w : World) : (dict_read r w).2 = w.
Proof. destruct r as [|l]; simpl; [done|]. by destruct (dicts w !! l). Qed.

Lemma default_paths_keys (host : Host) (sdk_dir k : string) :
  k ∈ ["dx"; "aapt"; "aidl"; "zipalign"; "apkbuilder"; "javac"; "jarsigner"] →
  is_Some (default_paths host sdk_dir !! k).
Proof.
  intros Hk. repeat (apply elem_of_cons in Hk as [->|Hk]; [by eexists|]).
  by apply elem_of_nil in Hk.
Qed.

Lemma getitem_run (l : nat) (k v : string) (d : gmap string string)
    (w : World) :
  dicts w !! l = Some d → d !! k = Some v →
  dict_getitem l k w = (Ok v, w).
Proof.
  intros Hl Hk. unfold dict_getitem. rewrite bind_run. simpl.
  by rewrite Hl, Hk.
Qed.

(** A construction from a mapping that exists: the defaults go into a
    table at a fresh location, the mapping is copied over them, and the
    tools are read off that table. *)
Lemma PlatformTarget_init_run (host : Host)
    (version sdk_dir platform_dir : string) (custom_paths : dict_ref)
    (w : World) (o : gmap string string) :
  (dict_read custom_paths w).1 = Ok o →
  let l := fresh (dom (dicts w)) in
  let paths := o ∪ default_paths host sdk_dir in
  PlatformTarget_init host version sdk_dir platform_dir custom_paths w
  = (Ok (platform_of_paths paths version sdk_dir platform_dir),
     set_dicts (<[l := paths]> (dicts w)) w).
Proof.
  intros Ho l paths.
  assert (Hl : dicts w !! l = None).
  { apply not_elem_of_dom, is_fresh. }
  set (w1 := set_dicts (<[l := default_paths host sdk_dir]> (dicts w)) w).
  assert (Ho1 : dict_read custom_paths w1 = (Ok o, w1)).
  { destruct custom_paths as [|l']; simpl in *.
    - by injection Ho as ->.
    - destruct (dicts w !! l') as [d|] eqn:E; [|done].
      injection Ho as ->. rewrite lookup_insert_ne by congruence.
      by rewrite E. }
  set (w2 := set_dicts (<[l := paths]> (dicts w)) w).
  assert (Hu : dict_update l custom_paths w1 = (Ok tt, w2)).
  { unfold dict_update. rewrite (bind_Ok_run _ _ _ _ _ Ho1).
    rewrite bind_run. simpl. rewrite lookup_insert_eq.
    unfold modify, w2, w1, set_dicts. simpl. by rewrite insert_insert_eq. }
  assert (Hg : ∀ k,
    k ∈ ["dx"; "aapt"; "aidl"; "zipalign"; "apkbuilder"; "javac";
         "jarsigner"] →
    dict_getitem l k w2 = (Ok (default "" (paths !! k)), w2)).
  { intros k Hk. apply getitem_run with paths.
    - simpl. apply lookup_insert_eq.
    - destruct (default_paths_keys host sdk_dir k Hk) as [v Hv].
      unfold paths. destruct (o !! k) as [v'|] eqn:Eo.
      + erewrite lookup_union_Some_l; eauto.
      + rewrite lookup_union_r by done. by rewrite Hv. }
  unfold PlatformTarget_init. rewrite bind_run.
  change (dict_new (default_paths host sdk_dir) w) with (Ok l, w1).
  cbv iota beta. rewrite (bind_Ok_run _ _ _ _ _ Hu).
  repeat (erewrite bind_Ok_run; [|apply Hg; set_solver]).
  reflexivity.
Qed.

Lemma dict_read_preserved (r : dict_ref) (w w' : World)
    (o : gmap string string) :
  default_custom_paths w' = default_custom_paths w →
  (∀ l d, dicts w !! l = Some d → dicts w' !! l = Some d) →
  (dict_read r w).1 = Ok o → (dict_read r w').1 = Ok o.
Proof.
  intros Hd Hh. destruct r as [|l]; simpl.
  - by rewrite Hd.
  - destruct (dicts w !! l) as [d|] eqn:E; [|done].
    intros [= ->]. by rewrite (Hh _ _ E).
Qed.

(** C10. A construction from a mapping that exists (the shared default
    or a dict on the heap) returns, and has changed neither the default
    mapping nor any dict that existed, the one it was given included:
    the overrides went into a table at a location that was free, and the
    tools are read off that table.  Any construction from an existing
    mapping afterwards gives what it would have given before. *)
Theorem init_leaves_custom_paths (host : Host)
    (version sdk_dir platform_dir : string) (custom_paths : dict_ref)
    (w : World) (o : gmap string string) :
  (dict_read custom_paths w).1 = Ok o →
  ∃ self w',
    PlatformTarget_init host version sdk_dir platform_dir custom_paths w
    = (Ok self, w')
    ∧ default_custom_paths w' = default_custom_paths w
    ∧ (∀ l d, dicts w !! l = Some d → dicts w' !! l = Some d)
    ∧ (dict_read custom_paths w').1 = Ok o
    ∧ (∃ l, dicts w !! l = None
         ∧ dicts w' !! l = Some (o ∪ default_paths host sdk_dir))
    ∧ self = platform_of_paths (o ∪ default_paths host sdk_dir)
               version sdk_dir platform_dir
    ∧ (∀ version2 sdk_dir2 platform_dir2 custom_paths2 o2,
         (dict_read custom_paths2 w).1 = Ok o2 →
         (PlatformTarget_init host version2 sdk_dir2 platform_dir2
            custom_paths2 w').1
         = (PlatformTarget_init host version2 sdk_dir2 platform_dir2
              custom_paths2 w).1).
Proof.
  intros Ho.
  assert (Hl : dicts w !! fresh (dom (dicts w)) = None).
  { apply not_elem_of_dom, is_fresh. }
  pose proof (PlatformTarget_init_run host version sdk_dir platform_dir
                custom_paths w o Ho) as Hrun.
  cbv zeta in Hrun.
  set (w' := set_dicts
               (<[fresh (dom (dicts w)) := o ∪ default_paths host sdk_dir]>
                  (dicts w)) w) in *.
  assert (Hd : default_custom_paths w' = default_custom_paths w) by done.
  assert (Hh : ∀ l d, dicts w !! l = Some d → dicts w' !! l = Some d).
  { intros l d E. simpl. rewrite lookup_insert_ne by congruence. done. }
  eexists _, w'. split; [exact Hrun|].
  split; [done|]. split; [done|].
  split; [by apply (dict_read_preserved _ w)|].
  split. { eexists. split; [exact Hl|]. simpl. apply lookup_insert_eq. }
  split; [done|].
  intros version2 sdk_dir2 platform_dir2 custom_paths2 o2 Ho2.
  rewrite (PlatformTarget_init_run host version2 sdk_dir2 platform_dir2
             custom_paths2 w o2 Ho2).
  rewrite (PlatformTarget_init_run host version2 sdk_dir2 platform_dir2
             custom_paths2 w' o2); [done|].
  by apply (dict_read_preserved _ w).
Qed.

Lemma init_leaves_custom_paths_witness :
  let overrides : gmap string string := {[ "dx" := "/opt/dx" ]} in
  let w := set_dicts {[ 5 := overrides ]} Demo.world in
  ∃ self w',
    PlatformTarget_init Demo.host "19" "/sdk" "/sdk/platforms/android-19"
      (DictLoc 5) w = (Ok self, w')
    ∧ PlatformTarget.dx self = "/opt/dx"
    ∧ dicts w' !! 5 = Some overrides
    ∧ (PlatformTarget_init Demo.host "19" "/sdk" "/sdk/platforms/android-19"
         DefaultPaths w').1 = Ok Demo.platform.
Proof.
  intros overrides w.
  destruct (init_leaves_custom_paths Demo.host "19" "/sdk"
              "/sdk/platforms/android-19" (DictLoc 5) w overrides eq_refl)
    as (self & w' & Hrun & _ & Hh & _ & _ & -> & Hother).
  eexists. exists w'. split; [exact Hrun|]. split; [reflexivity|].
  split; [by apply Hh|].
  rewrite (Hother "19" "/sdk" "/sdk/platforms/android-19" DefaultPaths ∅
             eq_refl).
  vm_compute. reflexivity.
Defined.

(** ** Resolving a platform *)

Lemma mapM_world {A B} (f : A → M B) (l : list A) (w : World) :
  (∀ x w0, (f x w0).2 = w0) → (mapM f l w).2 = w.
Proof.
  intros Hf. revert w. induction l as [|x l IH]; intros w; [done|].
  simpl. rewrite bind_run. pose proof (Hf x w) as Hx.
  destruct (f x w) as [[y|e] w1]; simpl in Hx; subst w1; [|done].
  rewrite bind_run. pose proof (IH w) as Hl.
  destruct (mapM f l w) as [[k|e] w1]; simpl in Hl; subst w1; done.
Qed.

(** Scanning the SDK only reads the disk. *)
Lemma installed_platforms_world (sdk_path : string) (w : World) :
  (installed_platforms sdk_path w).2 = w.
Proof.
  unfold installed_platforms. rewrite bind_run. unfold os.listdir.
  destruct (os.isdir_ (fs w) _); [|done].
  rewrite bind_run. unfold gets at 1. rewrite bind_run.
  match goal with |- context [mapM ?f ?l w] =>
    pose proof (mapM_world f l w) as Hm;
    destruct (mapM f l w) as [[ps|e] w1] end;
    simpl in Hm; rewrite Hm; try done;
    intros x w0; by destruct (Str.rsplit1 _ x !! 1).
Qed.

Lemma StronglySorted_last (l : list string) (v : string) :
  StronglySorted String.le l → last l = Some v →
  ∀ k, k ∈ l → String.le k v.
Proof.
  intros Hs Hl k Hk. apply last_Some in Hl as [l' ->].
  apply elem_of_app in Hk as [Hk|Hk].
  - eapply StronglySorted_app_1_elem_of; [done..|]. set_solver.
  - apply list_elem_of_singleton in Hk as ->. done.
Qed.

Lemma elem_of_sorted_keys (d : gmap string string) (k : string) :
  k ∈ sorted_keys d ↔ is_Some (d !! k).
Proof.
  unfold sorted_keys. rewrite merge_sort_Permutation, list_elem_of_fmap.
  split.
  - intros ([k' x] & -> & Hx). apply elem_of_map_to_list in Hx. eauto.
  - intros [x Hx]. exists (k, x). split; [done|].
    by apply elem_of_map_to_list.
Qed.

(** The last of the sorted keys is a key and is above every key. *)
Lemma last_sorted_keys (d : gmap string string) (v : string) :
  last (sorted_keys d) = Some v →
  is_Some (d !! v) ∧ ∀ k, is_Some (d !! k) → String.le k v.
Proof.
  intros Hl. split.
  - apply elem_of_sorted_keys. by apply last_Some_elem_of.
  - intros k Hk. eapply StronglySorted_last; [|done|].
    + apply StronglySorted_merge_sort; apply _.
    + by apply elem_of_sorted_keys.
Qed.

Lemma sorted_keys_nonempty (d : gmap string string) :
  d ≠ ∅ → is_Some (last (sorted_keys d)).
Proof.
  intros Hd. apply map_choose in Hd as (k & x & Hk).
  apply last_is_Some. intros E.
  assert (Hin : k ∈ sorted_keys d) by (apply elem_of_sorted_keys; eauto).
  rewrite E in Hin. by apply elem_of_nil in Hin.
Qed.

Lemma installed_platforms_run (sdk_path : string) (w : World)
    (platforms : gmap string string) :
  (installed_platforms sdk_path w).1 = Ok platforms →
  installed_platforms sdk_path w = (Ok platforms, w).
Proof.
  intros H. pose proof (installed_platforms_world sdk_path w) as Hw.
  destruct (installed_platforms sdk_path w) as [r w1]. simpl in *.
  by subst.
Qed.

(** C4. When the scan of the SDK finds at least one version and no
    target is asked for ([None] or the empty string), [get_platform]
    returns the platform of the installed version that is greatest in
    the byte-wise lexicographic order of strings, with that version's
    directory. *)
Theorem get_platform_latest (host : Host) (sdk_path : string)
    (target : option string) (w : World) (platforms : gmap string string) :
  (installed_platforms sdk_path w).1 = Ok platforms →
  platforms ≠ ∅ →
  truthy target = false →
  ∃ v root self w',
    get_platform host sdk_path target w = (Ok self, w')
    ∧ PlatformTarget.version self = v
    ∧ PlatformTarget.sdk_dir self = sdk_path
    ∧ PlatformTarget.platform_dir self = root
    ∧ platforms !! v = Some root
    ∧ ∀ k, is_Some (platforms !! k) → String.le k v.
Proof.
  intros Hp Hne Ht. apply installed_platforms_run in Hp.
  destruct (sorted_keys_nonempty platforms Hne) as [v Hv].
  destruct (last_sorted_keys platforms v Hv) as [[root Hroot] Hmax].
  exists v, root. unfold get_platform.
  rewrite (bind_Ok_run _ _ _ _ _ Hp). rewrite Ht. simpl negb. cbv iota.
  rewrite Hv. rewrite bind_run, mret_run.
  rewrite bind_run. unfold except_KeyError. rewrite Hroot, mret_run.
  rewrite (PlatformTarget_init_run host v sdk_path root DefaultPaths w
             (default_custom_paths w) eq_refl).
  eexists _, _. split; [reflexivity|]. done.
Qed.

Lemma get_platform_latest_witness :
  ∃ self w',
    get_platform Demo.host "/sdk" None Demo.world = (Ok self, w')
    ∧ PlatformTarget.version self = "8"
    ∧ PlatformTarget.platform_dir self = "/sdk/platforms/android-8"
    ∧ String.le "19" "8".
Proof.
  set (platforms := dict_of_pairs [("19", "/sdk/platforms/android-19");
                                   ("8", "/sdk/platforms/android-8")]).
  assert (Hp : (installed_platforms "/sdk" Demo.world).1 = Ok platforms)
    by (vm_compute; reflexivity).
  assert (H19 : platforms !! "19" = Some "/sdk/platforms/android-19")
    by (vm_compute; reflexivity).
  assert (Hne : platforms ≠ ∅).
  { intros E. rewrite E in H19. by rewrite lookup_empty in H19. }
  destruct (get_platform_latest Demo.host "/sdk" None Demo.world platforms
              Hp Hne eq_refl)
    as (v & root & self & w' & Hrun & Hv & _ & Hr & _ & Hmax).
  assert (Hc : (get_platform Demo.host "/sdk" None Demo.world).1
               = Ok (PlatformTarget.mk "8" "/sdk" "/sdk/platforms/android-8"
                       "/sdk/platform-tools/dx" "/sdk/platform-tools/aapt"
                       "/sdk/platform-tools/aidl" "/sdk/tools/zipalign"
                       "/sdk/tools/apkbuilder" "javac" "jarsigner"
                       "/sdk/platforms/android-8/android.jar"
                       "/sdk/platforms/android-8/framework.aidl"))
    by (vm_compute; reflexivity).
  rewrite Hrun in Hc. injection Hc as Hself. subst self.
  change ("8" = v) in Hv. subst v.
  eexists. exists w'. split; [exact Hrun|]. split; [reflexivity|].
  split; [reflexivity|]. apply Hmax. by eexists.
Defined.

(** C5. When the scan of the SDK succeeds and a non-empty requested
    version is not among the versions found, [get_platform] raises
    [ValueError] with the message
    [target "<version>" not found in "<sdk root>"], and the world is as
    before: no platform has been constructed. *)
Theorem get_platform_target_not_found (host : Host) (sdk_path target : string)
    (w : World) (platforms : gmap string string) :
  (installed_platforms sdk_path w).1 = Ok platforms →
  target ≠ "" →
  platforms !! target = None →
  get_platform host sdk_path (Some target) w
  = (Raise (ValueError ("target " +:+ Str.dquote +:+ target +:+ Str.dquote
                        +:+ " not found in " +:+ Str.dquote +:+ sdk_path
                        +:+ Str.dquote)), w).
Proof.
  intros Hp Ht Hn. apply installed_platforms_run in Hp.
  unfold get_platform. rewrite (bind_Ok_run _ _ _ _ _ Hp).
  assert (truthy (Some target) = true) as ->.
  { simpl. by rewrite bool_decide_eq_false_2. }
  simpl negb. cbv iota. rewrite bind_run, mret_run. simpl default.
  rewrite bind_run. unfold except_KeyError. rewrite Hn. reflexivity.
Qed.

Lemma get_platform_target_not_found_witness :
  get_platform Demo.host "/sdk" (Some "7") Demo.world
  = (Raise (ValueError ("target " +:+ Str.dquote +:+ "7" +:+ Str.dquote
                        +:+ " not found in " +:+ Str.dquote +:+ "/sdk"
                        +:+ Str.dquote)), Demo.world).
Proof.
  apply (get_platform_target_not_found Demo.host "/sdk" "7" Demo.world
           (dict_of_pairs [("19", "/sdk/platforms/android-19");
                           ("8", "/sdk/platforms/android-8")])).
  - vm_compute. reflexivity.
  - done.
  - vm_compute. reflexivity.
Defined.

(** ** Paths in normal form *)

Definition no_slash (c : string) : Prop := Str.contains Str.slash c = false.

(** A component that [normpath] keeps as it is. *)
Definition clean (c : string) : Prop :=
  c ≠ "" ∧ c ≠ "." ∧ c ≠ ".." ∧ no_slash c.

(** An absolute path in normal form with at least one component. *)
Definition normal_dir (d : string) : Prop :=
  ∃ pre cs, (pre = "/" ∨ pre = "//") ∧ cs ≠ [] ∧ Forall clean cs
            ∧ d = pre +:+ Str.join "/" cs.

Fixpoint last_char (s : string) : option ascii :=
  match s with
  | "" => None
  | String a s' => match s' with "" => Some a | _ => last_char s' end
  end.

Lemma sapp_cons (a : ascii) (s t : string) :
  String a s +:+ t = String a (s +:+ t).
Proof. reflexivity. Qed.

Lemma sapp_nil_l (t : string) : "" +:+ t = t.
Proof. reflexivity. Qed.

Lemma sapp_nil_r (s : string) : s +:+ "" = s.
Proof. induction s as [|a s IH]; [done|]. by rewrite sapp_cons, IH. Qed.

Lemma sapp_assoc (s t u : string) : (s +:+ t) +:+ u = s +:+ (t +:+ u).
Proof. induction s as [|a s IH]; [done|]. by rewrite !sapp_cons, IH. Qed.

Lemma no_slash_cons (a : ascii) (s : string) :
  no_slash (String a s) ↔ a ≠ Str.slash ∧ no_slash s.
Proof.
  unfold no_slash. simpl. destruct (decide (a = Str.slash)); naive_solver.
Qed.

Lemma no_slash_app (s t : string) :
  no_slash (s +:+ t) ↔ no_slash s ∧ no_slash t.
Proof.
  induction s as [|a s IH]; [rewrite sapp_nil_l; unfold no_slash; naive_solver|].
  rewrite sapp_cons, !no_slash_cons, IH. naive_solver.
Qed.

Lemma clean_head (c : string) :
  clean c → ∃ a c', c = String a c' ∧ a ≠ Str.slash.
Proof.
  intros (Hne & _ & _ & Hs). destruct c as [|a c']; [done|].
  apply no_slash_cons in Hs as [Ha _]. eauto.
Qed.

Lemma split_no_slash (p : string) : Forall no_slash (Str.split Str.slash p).
Proof.
  induction p as [|a p IH]; simpl.
  - by repeat constructor.
  - destruct (decide (a = Str.slash)) as [->|Ha].
    + by constructor.
    + destruct (Str.split Str.slash p) as [|h t].
      * constructor; [|done]. by apply no_slash_cons.
      * apply Forall_cons in IH as [Hh Ht]. constructor; [|done].
        by apply no_slash_cons.
Qed.

Lemma split_single (c : string) : no_slash c → Str.split Str.slash c = [c].
Proof.
  induction c as [|a c IH]; [done|]. intros [Ha Hc]%no_slash_cons. simpl.
  destruct (decide (a = Str.slash)); [done|]. by rewrite IH.
Qed.

Lemma split_app_slash (s t : string) :
  no_slash s →
  Str.split Str.slash (s +:+ "/" +:+ t) = s :: Str.split Str.slash t.
Proof.
  induction s as [|a s IH]; [done|]. intros [Ha Hs]%no_slash_cons.
  rewrite sapp_cons. simpl. destruct (decide (a = Str.slash)); [done|].
  by rewrite IH.
Qed.

Lemma join_cons_cons (c c' : string) (cs : list string) :
  Str.join "/" (c :: c' :: cs) = c +:+ "/" +:+ Str.join "/" (c' :: cs).
Proof. reflexivity. Qed.

Lemma join_snoc (cs : list string) (c : string) :
  cs ≠ [] → Str.join "/" (cs ++ [c]) = Str.join "/" cs +:+ "/" +:+ c.
Proof.
  induction cs as [|x cs IH]; [done|]. intros _.
  destruct cs as [|y cs]; [done|].
  change ((x :: y :: cs) ++ [c]) with (x :: (y :: cs) ++ [c]).
  change ((y :: cs) ++ [c]) with (y :: (cs ++ [c])) at 1.
  rewrite join_cons_cons. change (y :: (cs ++ [c])) with ((y :: cs) ++ [c]).
  rewrite IH by done. rewrite join_cons_cons. by rewrite !sapp_assoc.
Qed.

Lemma split_join (cs : list string) :
  cs ≠ [] → Forall no_slash cs →
  Str.split Str.slash (Str.join "/" cs) = cs.
Proof.
  induction cs as [|c cs IH]; [done|]. intros _ [Hc Hcs]%Forall_cons.
  destruct cs as [|c' cs].
  - by apply split_single.
  - rewrite join_cons_cons, split_app_slash by done. by rewrite IH.
Qed.

Lemma clean_no_slash (cs : list string) :
  Forall clean cs → Forall no_slash cs.
Proof.
  intros H. eapply Forall_impl; [exact H|]. by intros c (_ & _ & _ & Hc).
Qed.

Lemma fold_step_clean_id (n : nat) (cs acc : list string) :
  Forall clean cs → fold_left (path.normpath_step n) cs acc = acc ++ cs.
Proof.
  revert acc. induction cs as [|c cs IH]; intros acc Hcs; simpl.
  - by rewrite app_nil_r.
  - apply Forall_cons in Hcs as [(H1 & H2 & H3 & _) Hcs].
    rewrite IH by done. unfold path.normpath_step.
    rewrite !bool_decide_eq_false_2 by done. simpl.
    by rewrite <- app_assoc.
Qed.

Lemma startswith_nil (s : string) : Str.startswith s "" = true.
Proof. by destruct s. Qed.

Lemma startswith_cons (a b : ascii) (s p : string) :
  Str.startswith (String b s) (String a p)
  = if decide (a = b) then Str.startswith s p else false.
Proof.
  unfold Str.startswith. cbn [String.prefix].
  destruct (ascii_dec a b), (decide (a = b)); done.
Qed.

(** Decides [startswith] on strings whose first characters are known. *)
Ltac startswith_tac :=
  rewrite ?startswith_cons, ?startswith_nil;
  repeat case_decide; try done; try congruence.

Lemma join_clean_head (c : string) (cs : list string) :
  clean c → ∃ a r, Str.join "/" (c :: cs) = String a r ∧ a ≠ Str.slash.
Proof.
  intros (a & c' & -> & Ha)%clean_head. destruct cs as [|c2 cs].
  - by exists a, c'.
  - rewrite join_cons_cons, sapp_cons. eauto.
Qed.

(** [normpath] leaves an absolute path in normal form as it is. *)
Lemma normpath_normal (pre : string) (cs : list string) :
  pre = "/" ∨ pre = "//" → Forall clean cs →
  path.normpath (pre +:+ Str.join "/" cs) = pre +:+ Str.join "/" cs.
Proof.
  intros Hpre Hcs.
  assert (Hsplit : Str.split Str.slash (Str.join "/" cs)
                   = if decide (cs = []) then [""] else cs).
  { destruct (decide (cs = [])) as [->|Hne]; [done|].
    by apply split_join, clean_no_slash. }
  assert (Hfold : ∀ n, fold_left (path.normpath_step n)
                         (Str.split Str.slash (Str.join "/" cs)) [] = cs).
  { intros n. rewrite Hsplit. destruct (decide (cs = [])) as [->|Hne]; [done|].
    by rewrite fold_step_clean_id. }
  destruct cs as [|c cs].
  - destruct Hpre as [-> | ->]; reflexivity.
  - apply Forall_cons in Hcs as [Hc Hcs].
    destruct (join_clean_head c cs Hc) as (a & r & Hj & Ha).
    unfold path.normpath.
    destruct Hpre as [-> | ->].
    + assert (Hp : "/" +:+ Str.join "/" (c :: cs)
                   = String "/" (Str.join "/" (c :: cs))) by done.
      rewrite Hp. rewrite bool_decide_eq_false_2 by done.
      assert (Str.startswith (String "/" (Str.join "/" (c :: cs))) "//"
              = false) as ->.
      { rewrite Hj. unfold Str.slash in Ha. startswith_tac. }
      assert (Str.startswith (String "/" (Str.join "/" (c :: cs))) "/"
              = true) as ->.
      { startswith_tac. }
      simpl andb. cbv iota. cbv zeta.
      change (Str.split Str.slash (String "/" (Str.join "/" (c :: cs))))
        with ("" :: Str.split Str.slash (Str.join "/" (c :: cs))).
      change (fold_left (path.normpath_step 1)
                ("" :: Str.split Str.slash (Str.join "/" (c :: cs))) [])
        with (fold_left (path.normpath_step 1)
                (Str.split Str.slash (Str.join "/" (c :: cs))) []).
      rewrite Hfold. rewrite Hp.
      by rewrite bool_decide_eq_false_2.
    + assert (Hp : "//" +:+ Str.join "/" (c :: cs)
                   = String "/" (String "/" (Str.join "/" (c :: cs)))) by done.
      rewrite Hp. rewrite bool_decide_eq_false_2 by done.
      assert (Str.startswith
                (String "/" (String "/" (Str.join "/" (c :: cs)))) "///"
              = false) as ->.
      { rewrite Hj. unfold Str.slash in Ha. startswith_tac. }
      assert (Str.startswith
                (String "/" (String "/" (Str.join "/" (c :: cs)))) "//"
              = true) as ->.
      { startswith_tac. }
      assert (Str.startswith
                (String "/" (String "/" (Str.join "/" (c :: cs)))) "/"
              = true) as ->.
      { startswith_tac. }
      simpl andb. cbv iota. cbv zeta.
      change (Str.split Str.slash
                (String "/" (String "/" (Str.join "/" (c :: cs)))))
        with ("" :: "" :: Str.split Str.slash (Str.join "/" (c :: cs))).
      change (fold_left (path.normpath_step 2)
                ("" :: "" :: Str.split Str.slash (Str.join "/" (c :: cs))) [])
        with (fold_left (path.normpath_step 2)
                (Str.split Str.slash (Str.join "/" (c :: cs))) []).
      rewrite Hfold. rewrite Hp.
      by rewrite bool_decide_eq_false_2.
Qed.

Example normpath_normal_ex :
  path.normpath "/p/bin/com.example.app.apk" = "/p/bin/com.example.app.apk".
Proof. reflexivity. Qed.

Lemma Forall_removelast {A} (P : A → Prop) (l : list A) :
  Forall P l → Forall P (removelast l).
Proof.
  destruct l as [|x l] using rev_ind; [done|].
  rewrite removelast_last. by intros [H _]%Forall_app.
Qed.

Lemma step_clean (n : nat) (acc : list string) (comp : string) :
  n ≠ 0 → no_slash comp → Forall clean acc →
  Forall clean (path.normpath_step n acc comp).
Proof.
  intros Hn Hc Hacc. unfold path.normpath_step.
  destruct (bool_decide (comp = "")) eqn:E1; [done|].
  destruct (bool_decide (comp = ".")) eqn:E2; [done|].
  apply bool_decide_eq_false in E1, E2. simpl.
  destruct (bool_decide (comp = "..")) eqn:E3; simpl.
  - rewrite (bool_decide_eq_false_2 (n = 0)) by done. simpl.
    destruct (bool_decide (acc = [])) eqn:E4; simpl.
    { by apply Forall_removelast. }
    destruct (bool_decide (List.last acc "" = "..")) eqn:E5.
    + exfalso. apply bool_decide_eq_false in E4.
      apply bool_decide_eq_true in E5.
      destruct acc as [|x acc] using rev_ind; [done|].
      rewrite last_last in E5. subst x.
      apply Forall_app in Hacc as [_ Hx].
      apply Forall_cons in Hx as [(_ & _ & Hx & _) _]. done.
    + by apply Forall_removelast.
  - apply bool_decide_eq_false in E3. apply Forall_app. split; [done|].
    by repeat constructor.
Qed.

Lemma fold_step_clean (n : nat) (comps acc : list string) :
  n ≠ 0 → Forall no_slash comps → Forall clean acc →
  Forall clean (fold_left (path.normpath_step n) comps acc).
Proof.
  intros Hn. revert acc. induction comps as [|c comps IH]; intros acc Hc Hacc.
  - done.
  - apply Forall_cons in Hc as [Hc Hcs]. simpl. apply IH; [done|].
    by apply step_clean.
Qed.

(** [normpath] of an absolute path: one or two slashes, then clean
    components. *)
Lemma normpath_abs (p : string) :
  Str.startswith p "/" = true →
  ∃ pre cs, (pre = "/" ∨ pre = "//") ∧ Forall clean cs
            ∧ path.normpath p = pre +:+ Str.join "/" cs.
Proof.
  intros Hp. unfold path.normpath.
  destruct p as [|a p]; [done|].
  rewrite bool_decide_eq_false_2 by done. rewrite Hp.
  destruct (Str.startswith (String a p) "//"
            && negb (Str.startswith (String a p) "///")).
  - eexists "//", _. split; [by right|]. split.
    + apply (fold_step_clean 2); [done|apply split_no_slash|done].
    + cbv zeta. by rewrite bool_decide_eq_false_2.
  - eexists "/", _. split; [by left|]. split.
    + apply (fold_step_clean 1); [done|apply split_no_slash|done].
    + cbv zeta. by rewrite bool_decide_eq_false_2.
Qed.

Lemma join_abs (cwd p : string) :
  Str.startswith cwd "/" = true → Str.startswith p "/" = false →
  Str.startswith (path.join cwd p) "/" = true.
Proof.
  intros Hc Hp. unfold path.join. rewrite Hp.
  destruct cwd as [|a cwd]; [done|].
  rewrite startswith_cons, startswith_nil in Hc.
  destruct (decide ("/"%char = a)) as [<-|]; [|done].
  destruct (bool_decide (String "/" cwd = "")
            || Str.endswith (String "/" cwd) "/");
    rewrite sapp_cons; startswith_tac.
Qed.

(** [abspath] under an absolute current directory. *)
Lemma abspath_form (cwd p : string) :
  Str.startswith cwd "/" = true →
  ∃ pre cs, (pre = "/" ∨ pre = "//") ∧ Forall clean cs
            ∧ path.abspath cwd p = pre +:+ Str.join "/" cs.
Proof.
  intros Hc. unfold path.abspath, path.isabs.
  destruct (Str.startswith p "/") eqn:Hp.
  - by apply normpath_abs.
  - by apply normpath_abs, join_abs.
Qed.

Lemma last_char_app (s t : string) :
  t ≠ "" → last_char (s +:+ t) = last_char t.
Proof.
  intros Ht. induction s as [|a s IH]; [done|].
  rewrite sapp_cons. simpl. rewrite IH.
  destruct (s +:+ t) eqn:E; [|done].
  destruct s; [by rewrite sapp_nil_l in E|done].
Qed.

Lemma last_char_no_slash (c : string) :
  no_slash c → last_char c ≠ Some Str.slash.
Proof.
  induction c as [|a c IH]; [done|]. intros [Ha Hc]%no_slash_cons. simpl.
  destruct c; [congruence|]. by apply IH.
Qed.

Lemma endswith_slash (s : string) :
  Str.endswith s "/" = bool_decide (last_char s = Some Str.slash).
Proof.
  induction s as [|a s IH]; [done|]. simpl Str.endswith. rewrite IH.
  destruct s as [|b s].
  - simpl. rewrite orb_false_r. apply bool_decide_ext. unfold Str.slash.
    split; congruence.
  - rewrite (bool_decide_eq_false_2 (String a (String b s) = "/")) by done.
    done.
Qed.

Lemma rstrip_id (s : string) :
  last_char s ≠ Some Str.slash → Str.rstrip Str.slash s = s.
Proof.
  induction s as [|a s IH]; [done|]. simpl. destruct s as [|b s].
  - intros Ha. simpl. destruct (decide (a = Str.slash)); congruence.
  - intros H. by rewrite IH.
Qed.

Lemma rstrip_app_slash (s : string) :
  Str.rstrip Str.slash (s +:+ "/") = Str.rstrip Str.slash s.
Proof.
  induction s as [|a s IH]; [done|]. rewrite sapp_cons. simpl. by rewrite IH.
Qed.

Lemma head_slice_no_slash (a : string) : no_slash a → path.head_slice a = "".
Proof. destruct a as [|c a]; [done|]. intros H. simpl in *. by rewrite H. Qed.

Lemma contains_app_slash (s t : string) :
  Str.contains Str.slash (s +:+ "/" +:+ t) = true.
Proof.
  induction s as [|a s IH]; [done|]. rewrite sapp_cons. simpl.
  by destruct (decide (a = Str.slash)).
Qed.

Lemma head_slice_cons (c : ascii) (r : string) :
  Str.contains Str.slash (String c r) = true →
  path.head_slice (String c r) = String c (path.head_slice r).
Proof. intros H. cbn [path.head_slice]. by rewrite H. Qed.

Lemma head_slice_app_slash (s a : string) :
  no_slash a → path.head_slice (s +:+ "/" +:+ a) = s +:+ "/".
Proof.
  intros Ha. induction s as [|c s IH].
  - change ("" +:+ "/" +:+ a) with (String "/" a).
    rewrite head_slice_cons by done. by rewrite head_slice_no_slash.
  - change (String c s +:+ "/" +:+ a) with (String c (s +:+ "/" +:+ a)).
    rewrite head_slice_cons.
    + by rewrite IH.
    + change (String c (s +:+ "/" +:+ a)) with (String c s +:+ "/" +:+ a).
      apply contains_app_slash.
Qed.

Lemma last_char_join (cs : list string) :
  cs ≠ [] → Forall clean cs →
  Str.join "/" cs ≠ "" ∧ last_char (Str.join "/" cs) ≠ Some Str.slash.
Proof.
  induction cs as [|c cs IH]; [done|]. intros _ [Hc Hcs]%Forall_cons.
  destruct cs as [|c' cs].
  - destruct Hc as (Hne & _ & _ & Hs). split; [done|].
    by apply last_char_no_slash.
  - destruct (IH ltac:(done) Hcs) as [Hj Hl]. rewrite join_cons_cons.
    destruct (clean_head c Hc) as (a & r & -> & _). split; [done|].
    rewrite last_char_app; [|by destruct (Str.join "/" (c' :: cs))].
    rewrite last_char_app by done. done.
Qed.

Lemma all_char_false (s : string) (a : ascii) (r : string) :
  a ≠ Str.slash → Str.all_char Str.slash (s +:+ String a r) = false.
Proof.
  intros Ha. induction s as [|b s IH].
  - rewrite sapp_nil_l. simpl. by destruct (decide (a = Str.slash)).
  - rewrite sapp_cons. simpl. by destruct (decide (b = Str.slash)).
Qed.

(** [dirname] of a normal absolute path drops the last component. *)
Lemma dirname_normal (pre : string) (cs : list string) :
  pre = "/" ∨ pre = "//" → Forall clean cs →
  path.dirname (pre +:+ Str.join "/" cs)
  = pre +:+ Str.join "/" (removelast cs).
Proof.
  intros Hpre Hcs.
  assert (Hp : ∃ pre', pre = pre' +:+ "/" ∧ path.dirname pre = pre).
  { destruct Hpre as [-> | ->]; [by exists ""|by exists "/"]. }
  destruct Hp as (pre' & Hp & Hd).
  destruct cs as [|a init _] using rev_ind.
  { simpl. by rewrite !sapp_nil_r. }
  rewrite removelast_last. apply Forall_app in Hcs as [Hinit Ha].
  apply Forall_cons in Ha as [Ha _].
  assert (Has : no_slash a) by (by destruct Ha as (_ & _ & _ & ?)).
  destruct init as [|c init].
  - change (Str.join "/" ([] ++ [a])) with a. unfold path.dirname.
    destruct Hpre as [-> | ->].
    + change ("/" +:+ a) with ("" +:+ "/" +:+ a).
      rewrite head_slice_app_slash by done. reflexivity.
    + change ("//" +:+ a) with ("/" +:+ "/" +:+ a).
      rewrite head_slice_app_slash by done. reflexivity.
  - rewrite join_snoc by done.
    destruct (join_clean_head c init) as (b & r & Hj & Hb).
    { by apply Forall_cons in Hinit as [? _]. }
    destruct (last_char_join (c :: init) ltac:(done) Hinit) as [Hne Hl].
    unfold path.dirname. rewrite <- !sapp_assoc.
    rewrite sapp_assoc.
    rewrite head_slice_app_slash by done.
    assert (Hnz : (pre +:+ Str.join "/" (c :: init)) +:+ "/" ≠ "").
    { destruct Hpre as [-> | ->]; done. }
    rewrite (bool_decide_eq_false_2 _ Hnz).
    assert (Str.all_char Str.slash
              ((pre +:+ Str.join "/" (c :: init)) +:+ "/") = false) as ->.
    { rewrite Hj, sapp_assoc. by apply all_char_false. }
    simpl negb. simpl andb. cbv iota.
    rewrite rstrip_app_slash. apply rstrip_id.
    rewrite last_char_app by done. done.
Qed.

Example dirname_normal_ex : path.dirname "//a/b" = "//a".
Proof. reflexivity. Qed.

Lemma join_bin (pre : string) (init : list string) :
  pre = "/" ∨ pre = "//" → Forall clean init →
  path.join (pre +:+ Str.join "/" init) "bin"
  = pre +:+ Str.join "/" (init ++ ["bin"]).
Proof.
  intros Hpre Hinit. unfold path.join.
  assert (Str.startswith "bin" "/" = false) as -> by done.
  destruct init as [|c init].
  - destruct Hpre as [-> | ->]; reflexivity.
  - destruct (last_char_join (c :: init) ltac:(done) Hinit) as [Hne Hl].
    rewrite join_snoc by done.
    assert (Hd : pre +:+ Str.join "/" (c :: init) ≠ "").
    { destruct Hpre as [-> | ->]; done. }
    rewrite (bool_decide_eq_false_2 _ Hd), endswith_slash.
    rewrite last_char_app by done.
    rewrite (bool_decide_eq_false_2 _ Hl). simpl orb. cbv iota.
    by rewrite !sapp_assoc.
Qed.

(** Joining a clean file name to a normal directory and making the
    result absolute only puts a slash between them. *)
Lemma abspath_join_normal (cwd d f : string) :
  normal_dir d → clean f →
  path.join d f = d +:+ "/" +:+ f
  ∧ path.abspath cwd (path.join d f) = d +:+ "/" +:+ f.
Proof.
  intros (pre & cs & Hpre & Hne & Hcs & ->) Hf.
  destruct (clean_head f Hf) as (a & r & Hfa & Ha).
  destruct (last_char_join cs Hne Hcs) as [Hj Hl].
  assert (Hjoin : path.join (pre +:+ Str.join "/" cs) f
                  = (pre +:+ Str.join "/" cs) +:+ "/" +:+ f).
  { unfold path.join.
    assert (Str.startswith f "/" = false) as ->.
    { rewrite Hfa. unfold Str.slash in Ha. startswith_tac. }
    assert (Hd : pre +:+ Str.join "/" cs ≠ "").
    { destruct Hpre as [-> | ->]; done. }
    rewrite (bool_decide_eq_false_2 _ Hd), endswith_slash.
    rewrite last_char_app by done.
    by rewrite (bool_decide_eq_false_2 _ Hl). }
  split; [done|]. rewrite Hjoin.
  assert (Hform : (pre +:+ Str.join "/" cs) +:+ "/" +:+ f
                  = pre +:+ Str.join "/" (cs ++ [f])).
  { rewrite join_snoc by done. by rewrite !sapp_assoc. }
  rewrite Hform. unfold path.abspath, path.isabs.
  assert (Str.startswith (pre +:+ Str.join "/" (cs ++ [f])) "/" = true) as ->.
  { destruct Hpre as [-> | ->]; rewrite sapp_cons; startswith_tac. }
  apply normpath_normal; [done|]. apply Forall_app. split; [done|].
  constructor; [exact Hf|constructor].
Qed.

Lemma slength_app (s t : string) :
  String.length (s +:+ t) = String.length s + String.length t.
Proof. induction s as [|a s IH]; [done|]. rewrite sapp_cons. simpl. lia. Qed.

(** A name without a slash followed by a dotted extension is clean. *)
Lemma clean_with_ext (n ext : string) :
  no_slash n → no_slash ext → 3 ≤ String.length ext → clean (n +:+ ext).
Proof.
  intros Hn He Hl.
  assert (Hlen : 3 ≤ String.length (n +:+ ext)) by (rewrite slength_app; lia).
  repeat split.
  - intros E. rewrite E in Hlen. simpl in Hlen. lia.
  - intros E. rewrite E in Hlen. simpl in Hlen. lia.
  - intros E. rewrite E in Hlen. simpl in Hlen. lia.
  - by apply no_slash_app.
Qed.

(** ** The layout of a constructed project *)

(** A computation that never changes the current directory. *)
Definition keeps_cwd {A} (m : M A) : Prop := ∀ w, cwd (m w).2 = cwd w.

Lemma keeps_cwd_bind {A B} (m : M A) (k : A → M B) :
  keeps_cwd m → (∀ a, keeps_cwd (k a)) → keeps_cwd (m ≫= k).
Proof.
  intros Hm Hk w. rewrite bind_run. specialize (Hm w).
  destruct (m w) as [[a|e] w1]; simpl in *; [|done].
  by rewrite Hk.
Qed.

Lemma keeps_cwd_mret {A} (a : A) : keeps_cwd (mret a : M A).
Proof. done. Qed.

Lemma keeps_cwd_raise {A} (e : exn) : keeps_cwd (raise e : M A).
Proof. done. Qed.

Lemma keeps_cwd_dict_read (r : dict_ref) : keeps_cwd (dict_read r).
Proof. intros w. by rewrite dict_read_world. Qed.

Lemma keeps_cwd_dict_getitem (l : nat) (k : string) :
  keeps_cwd (dict_getitem l k).
Proof.
  apply keeps_cwd_bind; [apply keeps_cwd_dict_read|].
  intros d. by destruct (d !! k).
Qed.

Lemma keeps_cwd_init (host : Host) (version sdk_dir platform_dir : string)
    (custom_paths : dict_ref) :
  keeps_cwd (PlatformTarget_init host version sdk_dir platform_dir
               custom_paths).
Proof.
  unfold PlatformTarget_init. apply keeps_cwd_bind; [done|]. intros l.
  apply keeps_cwd_bind.
  { unfold dict_update. apply keeps_cwd_bind; [apply keeps_cwd_dict_read|].
    intros o. apply keeps_cwd_bind; [apply keeps_cwd_dict_read|]. done. }
  intros _.
  repeat (apply keeps_cwd_bind; [apply keeps_cwd_dict_getitem|]; intros ?).
  done.
Qed.

Lemma keeps_cwd_get_platform (host : Host) (sdk_path : string)
    (target : option string) :
  keeps_cwd (get_platform host sdk_path target).
Proof.
  unfold get_platform. apply keeps_cwd_bind.
  { intros w. by rewrite installed_platforms_world. }
  intros platforms. apply keeps_cwd_bind.
  { destruct (negb (truthy target)); [|done].
    by destruct (last (sorted_keys platforms)). }
  intros t. apply keeps_cwd_bind; [|intros r; apply keeps_cwd_init].
  intros w. unfold except_KeyError. by destruct (platforms !! t).
Qed.

(** The constructor derives every directory from the absolute manifest
    path. *)
Lemma AndroidProject_init_layout (host : Host) (manifest : string)
    (name : option string) (platform : option PlatformTarget.t)
    (sdk_dir target : option string) (w w' : World)
    (self : AndroidProject.t) :
  AndroidProject_init host manifest name platform sdk_dir target w
  = (Ok self, w') →
  let m := path.abspath (cwd w) manifest in
  AndroidProject.manifest self = m
  ∧ AndroidProject.resource_dir self = path.join (path.dirname m) "res"
  ∧ AndroidProject.gen_dir self = path.join (path.dirname m) "gen"
  ∧ AndroidProject.source_dir self = path.join (path.dirname m) "src"
  ∧ AndroidProject.out_dir self = path.join (path.dirname m) "bin"
  ∧ AndroidProject.asset_dir self = path.join (path.dirname m) "asset"
  ∧ AndroidProject.code self = None.
Proof.
  unfold AndroidProject_init. intros H.
  apply bind_Ok_inv in H as (p & w1 & E1 & H).
  assert (Hc : cwd w1 = cwd w).
  { destruct platform as [p0|].
    - by injection E1 as <- <-.
    - destruct (negb (truthy sdk_dir)); [done|].
      pose proof (keeps_cwd_get_platform host (default "" sdk_dir) target w)
        as Hk. by rewrite E1 in Hk. }
  apply bind_Ok_inv in H as (m & w2 & E2 & H).
  unfold gets in E2. injection E2 as <- <-.
  apply bind_Ok_inv in H as (n & w3 & E3 & H).
  injection H as <- <-. rewrite Hc. done.
Qed.

(** Under an absolute current directory, the output directory of a
    constructed project is an absolute path in normal form. *)
Lemma AndroidProject_init_out_dir (host : Host) (manifest : string)
    (name : option string) (platform : option PlatformTarget.t)
    (sdk_dir target : option string) (w w' : World)
    (self : AndroidProject.t) :
  Str.startswith (cwd w) "/" = true →
  AndroidProject_init host manifest name platform sdk_dir target w
  = (Ok self, w') →
  normal_dir (AndroidProject.out_dir self).
Proof.
  intros Hc H. apply AndroidProject_init_layout in H.
  destruct H as (_ & _ & _ & _ & -> & _).
  destruct (abspath_form (cwd w) manifest Hc) as (pre & cs & Hpre & Hcs & ->).
  rewrite dirname_normal by done.
  rewrite join_bin by (by try apply Forall_removelast).
  exists pre, (removelast cs ++ ["bin"]). split; [done|].
  split; [by destruct (removelast cs)|]. split; [|done].
  apply Forall_app. split; [by apply Forall_removelast|].
  constructor; [|constructor]. by repeat split.
Qed.

(** ** Where a build writes *)

(** C8. For a project whose output directory is an absolute normal path
    (as the constructor makes it, [AndroidProject_init_out_dir]) and
    whose name and configuration contain no slash, a [build] that
    returns has asked aapt for the archive [<out>/<name>.ap_] without a
    configuration and [<out>/<name>.<config>.ap_] with one, and has
    handed that archive to apkbuilder; the package it returns is
    [<out>/<name>.apk] either way. *)
Theorem build_output_paths (host : Host) (self self' : AndroidProject.t)
    (output config : option string) (w w' : World) (apk : Apk.t) :
  normal_dir (AndroidProject.out_dir self) →
  no_slash (AndroidProject.name self) →
  no_slash (default "" config) →
  AndroidProject_build host self output config w = (Ok (apk, self'), w') →
  let out := AndroidProject.out_dir self in
  let name := AndroidProject.name self in
  let archive :=
    if truthy config
    then out +:+ "/" +:+ name +:+ "." +:+ default "" config +:+ ".ap_"
    else out +:+ "/" +:+ name +:+ ".ap_" in
  Apk.filename apk = out +:+ "/" +:+ name +:+ ".apk"
  ∧ ∃ w0 kw dex,
      trace w' = trace w0
        ++ [AaptCall (PlatformTarget.aapt (AndroidProject.platform self)) kw;
            ApkBuilderCall
              (PlatformTarget.apkbuilder (AndroidProject.platform self))
              (out +:+ "/" +:+ name +:+ ".apk") dex (Some [archive])]
      ∧ aapt_apk_output kw = Some archive
      ∧ aapt_configurations kw = config.
Proof.
  intros Hout Hname Hcfg H out name archive.
  apply build_Ok in H
    as (w0 & c & _ & _ & _ & _ & _ & Hf & kw & Hk & Hkc & Ht).
  assert (Hapk : path.abspath (cwd w)
                   (path.join out (name +:+ ".apk"))
                 = out +:+ "/" +:+ name +:+ ".apk").
  { apply abspath_join_normal; [done|].
    apply clean_with_ext; [done|done|simpl; lia]. }
  assert (Harch : path.abspath (cwd w) (resource_filename self config)
                  = archive).
  { unfold resource_filename, archive. destruct (truthy config); simpl negb;
      cbv iota.
    - apply abspath_join_normal; [done|].
      apply clean_with_ext; [done| |].
      + apply no_slash_app. split; [done|]. apply no_slash_app. by split.
      + rewrite !slength_app. simpl. lia.
    - apply abspath_join_normal; [done|].
      apply clean_with_ext; [done|done|simpl; lia]. }
  fold out name in Hf. rewrite Hapk in Hf. split; [done|].
  exists w0, kw, (Some (CodeObj.filename c)).
  rewrite Ht, Hk, Hf, Harch. done.
Qed.

Lemma demo_out_dir_normal : normal_dir (AndroidProject.out_dir Demo.project).
Proof.
  exists "/", ["p"; "bin"]. split; [by left|]. split; [done|].
  split; [|done]. repeat constructor; done.
Qed.

Lemma build_output_paths_witness :
  ∃ apk self' w',
    AndroidProject_build Demo.host Demo.project None (Some "de") Demo.world
    = (Ok (apk, self'), w')
    ∧ Apk.filename apk = "/p/bin/com.example.app.apk"
    ∧ ∃ w0 kw dex,
        trace w' = trace w0
          ++ [AaptCall "/sdk/platform-tools/aapt" kw;
              ApkBuilderCall "/sdk/tools/apkbuilder"
                "/p/bin/com.example.app.apk" dex
                (Some ["/p/bin/com.example.app.de.ap_"])].
Proof.
  set (r := AndroidProject_build Demo.host Demo.project None (Some "de")
              Demo.world).
  assert (H : ∃ apk self', r = (Ok (apk, self'), r.2))
    by (do 2 eexists; vm_compute; reflexivity).
  destruct H as (apk & self' & H).
  destruct (build_output_paths Demo.host Demo.project self' None (Some "de")
              Demo.world r.2 apk demo_out_dir_normal eq_refl eq_refl H)
    as (Hf & w0 & kw & dex & Ht & _ & _).
  exists apk, self', r.2. split; [exact H|]. split; [exact Hf|].
  exists w0, kw, dex. exact Ht.
Defined.

(** * Further properties of the build code *)

(** ** What only reads *)

(** A computation that neither touches the disk nor runs a tool. *)
Definition reads_only {A} (m : M A) : Prop :=
  ∀ w, fs (m w).2 = fs w ∧ trace (m w).2 = trace w.

Lemma reads_only_bind {A B} (m : M A) (k : A → M B) :
  reads_only m → (∀ a, reads_only (k a)) → reads_only (m ≫= k).
Proof.
  intros Hm Hk w. rewrite bind_run. specialize (Hm w).
  destruct (m w) as [[a|e] w1]; simpl in *; [|done].
  destruct (Hk a w1) as [-> ->]. done.
Qed.

Lemma reads_only_dict_read (r : dict_ref) : reads_only (dict_read r).
Proof. intros w. by rewrite dict_read_world. Qed.

Lemma reads_only_dict_getitem (l : nat) (k : string) :
  reads_only (dict_getitem l k).
Proof.
  apply reads_only_bind; [apply reads_only_dict_read|].
  intros d. by destruct (d !! k).
Qed.

Lemma reads_only_init (host : Host) (version sdk_dir platform_dir : string)
    (custom_paths : dict_ref) :
  reads_only (PlatformTarget_init host version sdk_dir platform_dir
                custom_paths).
Proof.
  unfold PlatformTarget_init. apply reads_only_bind; [done|]. intros l.
  apply reads_only_bind.
  { unfold dict_update. apply reads_only_bind; [apply reads_only_dict_read|].
    intros o. apply reads_only_bind; [apply reads_only_dict_read|]. done. }
  intros _.
  repeat (apply reads_only_bind; [apply reads_only_dict_getitem|]; intros ?).
  done.
Qed.

Lemma reads_only_get_platform (host : Host) (sdk_path : string)
    (target : option string) :
  reads_only (get_platform host sdk_path target).
Proof.
  unfold get_platform. apply reads_only_bind.
  { intros w. by rewrite installed_platforms_world. }
  intros platforms. apply reads_only_bind.
  { destruct (negb (truthy target)); [|done].
    by destruct (last (sorted_keys platforms)). }
  intros t. apply reads_only_bind; [|intros r; apply reads_only_init].
  intros w. unfold except_KeyError. by destruct (platforms !! t).
Qed.

Lemma reads_only_project_init (host : Host) (manifest : string)
    (name : option string) (platform : option PlatformTarget.t)
    (sdk_dir target : option string) :
  reads_only (AndroidProject_init host manifest name platform sdk_dir target).
Proof.
  unfold AndroidProject_init. apply reads_only_bind.
  { destruct platform; [done|]. destruct (negb (truthy sdk_dir)); [done|].
    apply reads_only_get_platform. }
  intros p. apply reads_only_bind; [done|]. intros m.
  apply reads_only_bind; [|done].
  destruct (negb (truthy name)); [|done].
  apply reads_only_bind; [done|]. intros f.
  destruct (f !! m) as [[c|]|]; try done.
  destruct (xml_root_attrib host c) as [attrib|]; [|done].
  by destruct (attrib !! "package").
Qed.

(** X1. Resolving a platform and constructing a project, whether they
    return or raise, write nothing to disk and run no tool. *)
Theorem resolution_and_construction_read_only (host : Host) (w : World) :
  (∀ sdk_path target,
     fs (get_platform host sdk_path target w).2 = fs w
     ∧ trace (get_platform host sdk_path target w).2 = trace w)
  ∧ (∀ manifest name platform sdk_dir target,
       fs (AndroidProject_init host manifest name platform sdk_dir target w).2
       = fs w
       ∧ trace (AndroidProject_init host manifest name platform sdk_dir
                  target w).2 = trace w).
Proof.
  split.
  - intros. apply reads_only_get_platform.
  - intros. apply reads_only_project_init.
Qed.

(** X2. With neither a platform nor an SDK directory ([None] or the
    empty string), the constructor raises [ValueError] at once: the
    manifest is not looked at and the world is as before, whatever the
    other arguments. *)
Theorem project_init_needs_sdk (host : Host) (manifest : string)
    (name target : option string) (w : World) :
  let e := ValueError ("You need to provide the SDK path, "
                       +:+ "or a PlatformTarget instancen.") in
  AndroidProject_init host manifest name None None target w = (Raise e, w)
  ∧ AndroidProject_init host manifest name None (Some "") target w
    = (Raise e, w).
Proof. split; reflexivity. Qed.

(** ** The constructed project *)

Lemma join_component (pre : string) (init : list string) (c : string) :
  pre = "/" ∨ pre = "//" → Forall clean init → clean c →
  path.join (pre +:+ Str.join "/" init) c
  = pre +:+ Str.join "/" (init ++ [c]).
Proof.
  intros Hpre Hinit Hc. unfold path.join.
  destruct (clean_head c Hc) as (a & r & Hca & Ha).
  assert (Str.startswith c "/" = false) as ->.
  { rewrite Hca. unfold Str.slash in Ha. startswith_tac. }
  destruct init as [|x init].
  - destruct Hpre as [-> | ->]; reflexivity.
  - destruct (last_char_join (x :: init) ltac:(done) Hinit) as [Hne Hl].
    rewrite join_snoc by done.
    assert (Hd : pre +:+ Str.join "/" (x :: init) ≠ "").
    { destruct Hpre as [-> | ->]; done. }
    rewrite (bool_decide_eq_false_2 _ Hd), endswith_slash.
    rewrite last_char_app by done.
    rewrite (bool_decide_eq_false_2 _ Hl). simpl orb. cbv iota.
    by rewrite !sapp_assoc.
Qed.

Lemma normal_dir_join (pre : string) (init : list string) (c : string) :
  pre = "/" ∨ pre = "//" → Forall clean init → clean c →
  normal_dir (path.join (pre +:+ Str.join "/" init) c).
Proof.
  intros Hpre Hinit Hc. rewrite join_component by done.
  exists pre, (init ++ [c]). split; [done|].
  split; [by destruct init|]. split; [|done].
  apply Forall_app. split; [done|]. constructor; [done|constructor].
Qed.

(** X3. A project that the constructor returns, under an absolute
    current directory: its manifest is the absolute manifest path, its
    five directories are [res], [gen], [src], [bin] and [asset] joined to
    the manifest's directory, each an absolute path in normal form, and
    it has no [code] yet. *)
Theorem project_layout (host : Host) (manifest : string)
    (name : option string) (platform : option PlatformTarget.t)
    (sdk_dir target : option string) (w w' : World)
    (self : AndroidProject.t) :
  Str.startswith (cwd w) "/" = true →
  AndroidProject_init host manifest name platform sdk_dir target w
  = (Ok self, w') →
  let dir := path.dirname (AndroidProject.manifest self) in
  AndroidProject.manifest self = path.abspath (cwd w) manifest
  ∧ AndroidProject.resource_dir self = path.join dir "res"
  ∧ AndroidProject.gen_dir self = path.join dir "gen"
  ∧ AndroidProject.source_dir self = path.join dir "src"
  ∧ AndroidProject.out_dir self = path.join dir "bin"
  ∧ AndroidProject.asset_dir self = path.join dir "asset"
  ∧ Forall normal_dir
      [AndroidProject.resource_dir self; AndroidProject.gen_dir self;
       AndroidProject.source_dir self; AndroidProject.out_dir self;
       AndroidProject.asset_dir self]
  ∧ AndroidProject.code self = None.
Proof.
  intros Hc H. apply AndroidProject_init_layout in H.
  destruct H as (Hm & Hr & Hg & Hs & Ho & Ha & Hcode).
  cbv zeta. rewrite Hm, Hr, Hg, Hs, Ho, Ha.
  repeat (split; [done|]). split; [|done].
  destruct (abspath_form (cwd w) manifest Hc) as (pre & cs & Hpre & Hcs & ->).
  rewrite dirname_normal by done.
  repeat constructor;
    (apply normal_dir_join; [done|by apply Forall_removelast|by repeat split]).
Qed.

Lemma project_layout_witness :
  ∃ self w',
    AndroidProject_init Demo.host "AndroidManifest.xml" None None
      (Some "/sdk") None Demo.world = (Ok self, w')
    ∧ AndroidProject.manifest self = "/p/AndroidManifest.xml"
    ∧ AndroidProject.out_dir self = "/p/bin"
    ∧ AndroidProject.gen_dir self = "/p/gen".
Proof.
  set (r := AndroidProject_init Demo.host "AndroidManifest.xml" None None
              (Some "/sdk") None Demo.world).
  assert (H : ∃ self, r = (Ok self, r.2)) by (eexists; vm_compute; reflexivity).
  destruct H as [self H].
  destruct (project_layout Demo.host "AndroidManifest.xml" None None
              (Some "/sdk") None Demo.world r.2 self eq_refl H)
    as (Hm & _ & Hg & _ & Ho & _).
  exists self, r.2. split; [exact H|].
  rewrite Ho, Hg, Hm. repeat split; reflexivity.
Defined.

(** X4. The name of a constructed project is the name given when one is
    given; otherwise the manifest is a regular file whose root element
    has a [package] attribute, and that attribute is the name. *)
Theorem project_name (host : Host) (manifest : string)
    (name : option string) (platform : option PlatformTarget.t)
    (sdk_dir target : option string) (w w' : World)
    (self : AndroidProject.t) :
  AndroidProject_init host manifest name platform sdk_dir target w
  = (Ok self, w') →
  if truthy name then Some (AndroidProject.name self) = name
  else ∃ content attrib,
         fs w !! AndroidProject.manifest self = Some (File content)
         ∧ xml_root_attrib host content = Some attrib
         ∧ attrib !! "package" = Some (AndroidProject.name self).
Proof.
  unfold AndroidProject_init. intros H.
  apply bind_Ok_inv in H as (p & w1 & E1 & H).
  assert (Hfs : fs w1 = fs w).
  { destruct platform as [p0|].
    - by injection E1 as <- <-.
    - destruct (negb (truthy sdk_dir)); [done|].
      pose proof (reads_only_get_platform host (default "" sdk_dir) target w)
        as [Hk _]. by rewrite E1 in Hk. }
  apply bind_Ok_inv in H as (m & w2 & E2 & H).
  unfold gets in E2. injection E2 as <- <-.
  apply bind_Ok_inv in H as (n & w3 & E3 & H).
  injection H as <- <-. simpl.
  destruct (truthy name) eqn:Ht; simpl in E3.
  - injection E3 as <- <-. destruct name as [s|]; [done|done].
  - apply bind_Ok_inv in E3 as (f & w4 & E4 & E3).
    unfold gets in E4. injection E4 as <- <-. rewrite Hfs in E3.
    destruct (fs w !! path.abspath (cwd w1) manifest) as [[c|]|]; try done.
    destruct (xml_root_attrib host c) as [attrib|] eqn:Ex; [|done].
    destruct (attrib !! "package") as [n'|] eqn:Ep; [|done].
    injection E3 as <- <-. eauto.
Qed.

Lemma project_name_witness :
  ∃ self w',
    AndroidProject_init Demo.host "AndroidManifest.xml" None
      (Some Demo.platform) None None Demo.world = (Ok self, w')
    ∧ AndroidProject.name self = "com.example.app".
Proof.
  set (r := AndroidProject_init Demo.host "AndroidManifest.xml" None
              (Some Demo.platform) None None Demo.world).
  assert (H : ∃ self, r = (Ok self, r.2)) by (eexists; vm_compute; reflexivity).
  destruct H as [self H].
  pose proof (project_name Demo.host "AndroidManifest.xml" None
                (Some Demo.platform) None None Demo.world r.2 self H) as Hn.
  cbv iota beta in Hn. destruct Hn as (content & attrib & Hf & Hx & Hp).
  exists self, r.2. split; [exact H|].
  assert (Hm : AndroidProject.manifest self = "/p/AndroidManifest.xml").
  { assert (Hs : r.1 = Ok self) by (by rewrite H).
    vm_compute in Hs. by injection Hs as <-. }
  rewrite Hm in Hf. vm_compute in Hf. injection Hf as <-.
  vm_compute in Hx. injection Hx as <-.
  vm_compute in Hp. by injection Hp.
Defined.

(** ** More on resolving a platform *)

(** X5. When the scan succeeds and the non-empty requested version is
    installed, [get_platform] returns the platform of that version: its
    directory is the one the scan found, its library and interface
    files are [android.jar] and [framework.aidl] in that directory, and
    its tools are the defaults overridden by whatever the shared default
    mapping holds. *)
Theorem get_platform_explicit (host : Host) (sdk_path target root : string)
    (w : World) (platforms : gmap string string) :
  (installed_platforms sdk_path w).1 = Ok platforms →
  target ≠ "" →
  platforms !! target = Some root →
  ∃ w',
    get_platform host sdk_path (Some target) w
    = (Ok (platform_of_paths
             (default_custom_paths w ∪ default_paths host sdk_path)
             target sdk_path root), w')
    ∧ fs w' = fs w ∧ trace w' = trace w.
Proof.
  intros Hp Ht Hr. apply installed_platforms_run in Hp.
  unfold get_platform. rewrite (bind_Ok_run _ _ _ _ _ Hp).
  assert (truthy (Some target) = true) as ->.
  { simpl. by rewrite bool_decide_eq_false_2. }
  simpl negb. cbv iota. rewrite bind_run, mret_run. simpl default.
  rewrite bind_run. unfold except_KeyError. rewrite Hr, mret_run.
  rewrite (PlatformTarget_init_run host target sdk_path root DefaultPaths w
             (default_custom_paths w) eq_refl).
  eexists. split; [reflexivity|]. done.
Qed.

Lemma get_platform_explicit_witness :
  ∃ w', get_platform Demo.host "/sdk" (Some "19") Demo.world
        = (Ok Demo.platform, w').
Proof.
  destruct (get_platform_explicit Demo.host "/sdk" "19"
              "/sdk/platforms/android-19" Demo.world
              (dict_of_pairs [("19", "/sdk/platforms/android-19");
                              ("8", "/sdk/platforms/android-8")]))
    as (w' & H & _).
  - vm_compute. reflexivity.
  - done.
  - vm_compute. reflexivity.
  - exists w'. rewrite H. f_equal.
Defined.

(** X6. When the scan succeeds but finds no platform and no target is
    asked for, [get_platform] raises [IndexError] (from taking the last
    of an empty list), not the "target not found" [ValueError]. *)
Theorem get_platform_none_installed (host : Host) (sdk_path : string)
    (target : option string) (w : World) :
  (installed_platforms sdk_path w).1 = Ok ∅ →
  truthy target = false →
  get_platform host sdk_path target w = (Raise IndexError, w).
Proof.
  intros Hp Ht. apply installed_platforms_run in Hp.
  unfold get_platform. rewrite (bind_Ok_run _ _ _ _ _ Hp), Ht.
  reflexivity.
Qed.

Lemma get_platform_none_installed_witness :
  let w := set_fs (list_to_map [("/sdk", Dir); ("/sdk/platforms", Dir);
                                ("/sdk/platforms/README", File "text")])
             Demo.world in
  get_platform Demo.host "/sdk" None w = (Raise IndexError, w).
Proof.
  intros w. apply get_platform_none_installed; [|done].
  vm_compute. reflexivity.
Defined.

Lemma split_absent (c : ascii) (s : string) :
  Str.contains c s = false → Str.split c s = [s].
Proof.
  induction s as [|a s IH]; [done|]. simpl.
  destruct (decide (a = c)); [done|]. intros H. by rewrite IH.
Qed.

Lemma mapM_raise {A B} (f : A → M B) (l : list A) (x : A) (w : World)
    (e : exn) :
  (∀ y, (∃ b, f y w = (Ok b, w)) ∨ f y w = (Raise e, w)) →
  x ∈ l → f x w = (Raise e, w) →
  mapM f l w = (Raise e, w).
Proof.
  intros Hf Hx Hr. induction l as [|y l IH]; [by apply elem_of_nil in Hx|].
  simpl. rewrite bind_run. destruct (Hf y) as [[b Hb]|Hb].
  - rewrite Hb. apply elem_of_cons in Hx as [->|Hx]; [congruence|].
    rewrite bind_run. by rewrite IH.
  - by rewrite Hb.
Qed.

(** X7. One directory under [platforms] whose whole path holds no [-]
    makes every resolution raise [IndexError], whatever target is asked
    for and whatever else is installed: the version is what follows the
    last [-] of the path, and there is none. *)
Theorem get_platform_dashless_entry (host : Host) (sdk_path e : string)
    (target : option string) (w : World) :
  os.isdir_ (fs w) (path.join sdk_path "platforms") = true →
  e ∈ os.entries (fs w) (path.join sdk_path "platforms") →
  os.isdir_ (fs w) (path.join3 sdk_path "platforms" e) = true →
  Str.contains "-"%char (path.join3 sdk_path "platforms" e) = false →
  get_platform host sdk_path target w = (Raise IndexError, w).
Proof.
  intros Hd He Hi Hc.
  assert (Hs : installed_platforms sdk_path w = (Raise IndexError, w)).
  { unfold installed_platforms. rewrite bind_run. unfold os.listdir.
    rewrite Hd. rewrite bind_run. unfold gets at 1. rewrite bind_run.
    erewrite mapM_raise; [done| | |].
    - intros y. destruct (Str.rsplit1 "-" y !! 1); eauto.
    - apply list_elem_of_In, filter_In. split; [|exact Hi].
      apply list_elem_of_In, list_elem_of_fmap. eauto.
    - unfold Str.rsplit1. by rewrite split_absent. }
  unfold get_platform. rewrite bind_run. by rewrite Hs.
Qed.

Lemma get_platform_dashless_entry_witness :
  let w := set_fs (<["/sdk/platforms/docs" := Dir]> Demo.disk) Demo.world in
  get_platform Demo.host "/sdk" (Some "19") w = (Raise IndexError, w).
Proof.
  intros w. apply (get_platform_dashless_entry Demo.host "/sdk" "docs").
  - vm_compute. reflexivity.
  - apply list_elem_of_In. vm_compute. tauto.
  - vm_compute. reflexivity.
  - vm_compute. reflexivity.
Defined.

(** ** Tool paths *)

(** The executable a platform uses for a tool, by the tool's key in the
    path table. *)
Definition tool_path (self : PlatformTarget.t) (k : string)
  : option string :=
  if decide (k = "dx") then Some (PlatformTarget.dx self)
  else if decide (k = "aapt") then Some (PlatformTarget.aapt self)
  else if decide (k = "aidl") then Some (PlatformTarget.aidl self)
  else if decide (k = "zipalign") then Some (PlatformTarget.zipalign self)
  else if decide (k = "apkbuilder") then Some (PlatformTarget.apkbuilder self)
  else if decide (k = "javac") then Some (PlatformTarget.javac self)
  else if decide (k = "jarsigner") then Some (PlatformTarget.jarsigner self)
  else None.

(** X8. For each of the seven tools, a constructed platform uses the
    path that [custom_paths] gives for the tool's key when it has one,
    and the default path otherwise; other keys of [custom_paths] change
    nothing. *)
Theorem init_override_precedence (host : Host)
    (version sdk_dir platform_dir : string) (custom_paths : dict_ref)
    (w : World) (o : gmap string string) :
  (dict_read custom_paths w).1 = Ok o →
  ∃ self w',
    PlatformTarget_init host version sdk_dir platform_dir custom_paths w
    = (Ok self, w')
    ∧ (∀ k, k ∈ ["dx"; "aapt"; "aidl"; "zipalign"; "apkbuilder"; "javac";
                 "jarsigner"] →
         tool_path self k
         = match o !! k with
           | Some v => Some v
           | None => default_paths host sdk_dir !! k
           end)
    ∧ (∀ o', (∀ k, is_Some (tool_path self k) → o' !! k = o !! k) →
         self = platform_of_paths (o' ∪ default_paths host sdk_dir)
                  version sdk_dir platform_dir).
Proof.
  intros Ho. eexists _, _. split.
  { apply PlatformTarget_init_run. exact Ho. }
  split.
  - intros k Hk.
    destruct (default_paths_keys host sdk_dir k Hk) as [v Hv].
    assert (Hu : (o ∪ default_paths host sdk_dir) !! k
                 = match o !! k with
                   | Some v => Some v
                   | None => default_paths host sdk_dir !! k
                   end).
    { destruct (o !! k) as [v'|] eqn:Eo.
      - by erewrite lookup_union_Some_l.
      - by rewrite lookup_union_r. }
    rewrite <- Hu.
    assert (Hs : is_Some ((o ∪ default_paths host sdk_dir) !! k)).
    { rewrite Hu. destruct (o !! k); [eauto|]. rewrite Hv. eauto. }
    destruct Hs as [x Hx].
    repeat (apply elem_of_cons in Hk as [->|Hk];
            [unfold tool_path; simpl; by rewrite Hx|]).
    by apply elem_of_nil in Hk.
  - intros o' Ho'.
    assert (Hk : ∀ k, k ∈ ["dx"; "aapt"; "aidl"; "zipalign"; "apkbuilder";
                           "javac"; "jarsigner"] →
                 (o' ∪ default_paths host sdk_dir) !! k
                 = (o ∪ default_paths host sdk_dir) !! k).
    { intros k Hk. rewrite !lookup_union. rewrite Ho'; [done|].
      repeat (apply elem_of_cons in Hk as [->|Hk]; [by eexists|]).
      by apply elem_of_nil in Hk. }
    unfold platform_of_paths. rewrite !Hk by set_solver. done.
Qed.

Lemma init_override_precedence_witness :
  let overrides : gmap string string :=
    {[ "dx" := "/opt/dx"; "emulator" := "/opt/emulator" ]} in
  let w := set_dicts {[ 5 := overrides ]} Demo.world in
  ∃ self w',
    PlatformTarget_init Demo.host "19" "/sdk" "/sdk/platforms/android-19"
      (DictLoc 5) w = (Ok self, w')
    ∧ PlatformTarget.dx self = "/opt/dx"
    ∧ PlatformTarget.aapt self = "/sdk/platform-tools/aapt".
Proof.
  intros overrides w.
  destruct (init_override_precedence Demo.host "19" "/sdk"
              "/sdk/platforms/android-19" (DictLoc 5) w overrides eq_refl)
    as (self & w' & Hrun & Hk & _).
  exists self, w'. split; [exact Hrun|].
  pose proof (Hk "dx" ltac:(set_solver)) as Hdx.
  pose proof (Hk "aapt" ltac:(set_solver)) as Haapt.
  vm_compute in Hdx. vm_compute in Haapt.
  split; [by injection Hdx|by injection Haapt].
Defined.

(** ** Typed artifacts and raw paths *)

(** X9. [build_apk] treats a non-empty raw path exactly as the typed
    artifact of that path, for the code and for the resources alike;
    absent arguments and empty raw paths are both left out of the
    apkbuilder call, which then gets the absolute output path only. *)
Theorem build_apk_raw_or_typed (host : Host) (self : PlatformTarget.t)
    (output : string) (a b : ascii) (s t : string) (w : World) :
  PlatformTarget_build_apk host self output
    (ARaw (String a s)) (ARaw (String b t)) w
  = PlatformTarget_build_apk host self output
      (AObj (CodeObj.mk (String a s))) (AObj (ResourceObj.mk (String b t))) w
  ∧ PlatformTarget_build_apk host self output (ARaw "") (ARaw "") w
    = PlatformTarget_build_apk host self output ANone ANone w
  ∧ trace (PlatformTarget_build_apk host self output ANone ANone w).2
    = trace w ++ [ApkBuilderCall (PlatformTarget.apkbuilder self)
                    (path.abspath (cwd w) output) None None]
  ∧ trace (PlatformTarget_build_apk host self output
             (ARaw (String a s)) (ARaw (String b t)) w).2
    = trace w ++ [ApkBuilderCall (PlatformTarget.apkbuilder self)
                    (path.abspath (cwd w) output) (Some (String a s))
                    (Some [String b t])].
Proof.
  repeat split; try reflexivity.
  - unfold PlatformTarget_build_apk. rewrite !bind_run. unfold gets.
    cbv iota beta. rewrite bind_run. unfold invoke at 1. simpl fs.
    destruct (run_tool host _ (fs w)) as [[] f']; reflexivity.
  - unfold PlatformTarget_build_apk. rewrite !bind_run. unfold gets.
    cbv iota beta. rewrite bind_run. unfold invoke at 1. simpl fs.
    destruct (run_tool host _ (fs w)) as [[] f']; reflexivity.
Qed.

(** ** Creating directories *)

(** X10. A [mkdir] that returns leaves the directory in place, and a
    second [mkdir] of it, recursive or not, returns without changing
    anything; when the path was there already, the first call changed
    nothing either. *)
Theorem mkdir_idempotent (d : string) (r r' : bool) (w w1 : World) :
  mkdir d r w = (Ok tt, w1) →
  os.exists_ (fs w1) d = true
  ∧ mkdir d r' w1 = (Ok tt, w1)
  ∧ (os.exists_ (fs w) d = true → w1 = w).
Proof.
  unfold mkdir. rewrite bind_run. unfold os.path_exists at 1, gets at 1.
  destruct (os.exists_ (fs w) d) eqn:Ex; simpl negb; cbv iota.
  - intros [= <-]. rewrite Ex. repeat split.
    rewrite bind_run. unfold os.path_exists, gets. by rewrite Ex.
  - intros H.
    assert (Hex : os.exists_ (fs w1) d = true).
    { change (negb false) with true in H. cbv beta iota in H. destruct r.
      - unfold os.makedirs in H. cbv beta in H.
        destruct (os.makedirs_go (os.ancestors d) (fs w)) as [f'|e];
          [|discriminate H].
        destruct (os.exists_ f' d); [discriminate H|]. injection H as <-.
        apply bool_decide_eq_true. simpl. rewrite lookup_insert_eq. eauto.
      - unfold os.mkdir in H. cbv beta in H. rewrite Ex in H.
        destruct (os.parent_ok (fs w) d); [|discriminate H].
        injection H as <-.
        apply bool_decide_eq_true. simpl. rewrite lookup_insert_eq. eauto. }
    split; [done|]. split; [|done].
    rewrite bind_run. unfold os.path_exists, gets. by rewrite Hex.
Qed.

Lemma mkdir_idempotent_witness :
  ∃ w1, mkdir "/p/bin/classes/com" true Demo.world = (Ok tt, w1)
        ∧ fs w1 !! "/p/bin/classes" = Some Dir
        ∧ mkdir "/p/bin/classes/com" false w1 = (Ok tt, w1).
Proof.
  set (r := mkdir "/p/bin/classes/com" true Demo.world).
  assert (H : r = (Ok tt, r.2)) by (vm_compute; reflexivity).
  destruct (mkdir_idempotent "/p/bin/classes/com" true false Demo.world r.2 H)
    as (_ & Hagain & _).
  exists r.2. split; [exact H|]. split; [|exact Hagain].
  vm_compute. reflexivity.
Defined.

(** ** Finding source files *)

Lemma glob_fold_elem (pat : string)
    (triples : list (string * list string * list string))
    (acc : list string) (p : string) :
  p ∈ fold_left
        (fun results '(base, dirs, files) =>
           results ++ (path.join base <$> Str.fnmatch_filter files pat))
        triples acc →
  p ∈ acc
  ∨ ∃ base dirs files,
      (base, dirs, files) ∈ triples
      ∧ p ∈ (path.join base <$> Str.fnmatch_filter files pat).
Proof.
  revert acc. induction triples as [|[[base dirs] files] triples IH];
    intros acc; simpl.
  - by left.
  - intros H. apply IH in H as [H|(b & ds & fs' & Hin & Hp)].
    + apply elem_of_app in H as [H|H]; [by left|].
      right. exists base, dirs, files. split; [by left|done].
    + right. exists b, ds, fs'. split; [by right|done].
Qed.

(** X11. [recursive_glob] only reads.  Of a root that is not a
    directory it finds nothing, without raising.  Every path it returns
    is an entry of a directory at or below the root, joined to that
    directory, whose name matches the pattern and which is not itself a
    directory. *)
Theorem recursive_glob_sound (treeroot pattern : string) (w w' : World)
    (l : list string) :
  recursive_glob treeroot pattern w = (Ok l, w') →
  w' = w
  ∧ (os.isdir_ (fs w) treeroot = false → l = [])
  ∧ ∀ p, p ∈ l →
      ∃ base f,
        p = path.join base f
        ∧ Str.fnmatch f pattern = true
        ∧ f ∈ os.entries (fs w) base
        ∧ os.isdir_ (fs w) base = true
        ∧ os.isdir_ (fs w) p = false
        ∧ (base = treeroot ∨ os.below treeroot base = true).
Proof.
  unfold recursive_glob. rewrite bind_run. unfold os.walk, gets.
  cbv beta iota. intros [= <- <-]. split; [done|]. split.
  { by intros ->. }
  intros p Hp. apply glob_fold_elem in Hp
    as [Hp|(base & dirs & files & Hin & Hp)]; [by apply elem_of_nil in Hp|].
  destruct (os.isdir_ (fs w) treeroot) eqn:Hroot;
    [|by apply elem_of_nil in Hin].
  assert (Hd : ∃ d,
    (d = treeroot ∨ os.below treeroot d && os.isdir_ (fs w) d = true)
    ∧ (base, dirs, files)
      = (d, List.filter (λ e, os.isdir_ (fs w) (path.join d e))
              (os.entries (fs w) d),
            List.filter (λ e, negb (os.isdir_ (fs w) (path.join d e)))
              (os.entries (fs w) d))).
  { apply elem_of_cons in Hin as [Heq|Hin].
    - exists treeroot. split; [by left|done].
    - apply list_elem_of_fmap in Hin as (d & Heq & Hd). exists d.
      split; [|done]. right.
      by apply list_elem_of_In, filter_In in Hd as [_ Hd]. }
  destruct Hd as (d & Hd & Heq). injection Heq as -> _ ->.
  apply list_elem_of_fmap in Hp as (f & -> & Hf).
  apply list_elem_of_In, filter_In in Hf as [Hf Hm].
  apply filter_In in Hf as [Hf Hnd].
  exists d, f. split; [done|]. split; [done|].
  split; [by apply list_elem_of_In|].
  destruct Hd as [->|Hd].
  - split; [done|]. split; [by apply negb_true_iff|by left].
  - apply andb_true_iff in Hd as [Hb Hi].
    split; [done|]. split; [by apply negb_true_iff|by right].
Qed.

Lemma recursive_glob_sound_witness :
  ∃ l, recursive_glob "/p" "*.java" Demo.world = (Ok l, Demo.world)
       ∧ l = ["/p/src/Main.java"]
       ∧ recursive_glob "/nowhere" "*.java" Demo.world = (Ok [], Demo.world).
Proof.
  set (r := recursive_glob "/p" "*.java" Demo.world).
  assert (H : r = (Ok ["/p/src/Main.java"], r.2)) by (vm_compute; reflexivity).
  destruct (recursive_glob_sound "/p" "*.java" Demo.world r.2 _ H)
    as (Hw & _ & _).
  exists ["/p/src/Main.java"]. rewrite <- Hw at 1. split; [exact H|].
  split; [done|].
  set (r0 := recursive_glob "/nowhere" "*.java" Demo.world).
  assert (H0 : ∃ l0, r0 = (Ok l0, r0.2)) by (eexists; vm_compute; reflexivity).
  destruct H0 as [l0 H0].
  destruct (recursive_glob_sound "/nowhere" "*.java" Demo.world r0.2 l0 H0)
    as (Hw0 & Hnil & _).
  rewrite H0, Hw0, Hnil; [done|]. vm_compute. reflexivity.
Defined.

(** X12. Over a source directory that does not exist, [compile_aidl]
    runs no tool and returns, leaving the world as it was. *)
Theorem compile_aidl_missing_source (host : Host) (self : PlatformTarget.t)
    (source_dir output_dir : string) (w : World) :
  os.isdir_ (fs w) source_dir = false →
  PlatformTarget_compile_aidl host self source_dir output_dir w = (Ok tt, w).
Proof.
  intros Hd. unfold PlatformTarget_compile_aidl.
  destruct (recursive_glob_run source_dir "*.aidl" w) as [l E].
  rewrite (bind_Ok_run _ _ _ _ _ E).
  unfold recursive_glob in E. rewrite bind_run in E.
  unfold os.walk, gets in E. cbv beta iota in E. rewrite Hd in E.
  injection E as <-. reflexivity.
Qed.

Lemma compile_aidl_missing_source_witness :
  PlatformTarget_compile_aidl Demo.host Demo.platform "/p/aidl" "/p/gen"
    Demo.world = (Ok tt, Demo.world).
Proof. apply compile_aidl_missing_source. vm_compute. reflexivity. Defined.

(** ** More on building *)

(** X13. A [build] that returns on a project that has no [code] yet has
    compiled once: javac has run once more, the project now holds a
    [code], and a further [build] on the project that comes back runs
    javac no more. *)
Theorem build_compiles_once (host : Host) (self self1 : AndroidProject.t)
    (output config : option string) (w w1 : World) (apk : Apk.t) :
  AndroidProject.code self = None →
  AndroidProject_build host self output config w = (Ok (apk, self1), w1) →
  count_javac (trace w1) = count_javac (trace w) + 1
  ∧ is_Some (AndroidProject.code self1)
  ∧ ∀ output' config' apk' self2 w2,
      AndroidProject_build host self1 output' config' w1
      = (Ok (apk', self2), w2) →
      count_javac (trace w2) = count_javac (trace w1) ∧ self2 = self1.
Proof.
  intros Hnone H.
  apply build_Ok in H
    as (w0 & c & [[_ Hc]|([x Hx] & _ & _)] & Hcode & _ & _ & _ & _ & kw & _ & _
        & Ht); [|congruence].
  apply project_compile_javac in Hc as [Hj _].
  assert (Hcount : count_javac (trace w1) = count_javac (trace w) + 1).
  { rewrite Ht, count_javac_app, Hj. unfold count_javac. simpl. lia. }
  split; [done|]. split; [eauto|].
  intros output' config' apk' self2 w2 H2.
  apply build_cached_javac in H2; [done|eauto].
Qed.

Lemma build_compiles_once_witness :
  let b1 := AndroidProject_build Demo.host Demo.project None None
              Demo.world in
  count_javac (trace b1.2) = 1.
Proof.
  intros b1.
  assert (H : ∃ apk self1, b1 = (Ok (apk, self1), b1.2))
    by (do 2 eexists; vm_compute; reflexivity).
  destruct H as (apk & self1 & H).
  destruct (build_compiles_once Demo.host Demo.project self1 None None
              Demo.world b1.2 apk eq_refl H) as (Hc & _).
  exact Hc.
Defined.

(** X14. The [output] argument of [build] has no effect: whatever is
    passed for it, the result and the world are the same, and the
    package goes to [<out>/<name>.apk]. *)
Theorem build_ignores_output (host : Host) (self : AndroidProject.t)
    (output output' config : option string) (w : World) :
  AndroidProject_build host self output config w
  = AndroidProject_build host self output' config w.
Proof. reflexivity. Qed.

(** X15. When the zipalign run of an in-place [align] fails, [align]
    raises the tool's error: nothing is renamed, the disk is as the tool
    left it (a temporary file it wrote stays), and the log holds the one
    failed run. *)
Theorem align_in_place_failure (host : Host) (self : PlatformTarget.t)
    (apk : pkg) (output : option string) (w : World)
    (f1 : gmap string node) :
  let infile := pkg_filename apk in
  let outfile := infile +:+ ".align." +:+ clock w (ticks w) in
  let call := ZipAlignCall (PlatformTarget.zipalign self) infile outfile
                4%Z true in
  truthy output = false →
  run_tool host call (fs w) = (false, f1) →
  ∃ w', PlatformTarget_align host self apk output w
        = (Raise (ToolError call), w')
    ∧ fs w' = f1
    ∧ trace w' = trace w ++ [call].
Proof.
  intros infile outfile call Hout Hrun.
  unfold PlatformTarget_align. rewrite Hout. simpl negb. cbv iota.
  rewrite !bind_run. unfold os.time. rewrite mret_run. rewrite !bind_run.
  rewrite mret_run. fold infile. fold outfile. fold call.
  rewrite bind_run. unfold invoke. simpl fs. rewrite Hrun.
  eexists. split; [reflexivity|]. done.
Qed.

Lemma align_in_place_failure_witness :
  ∃ w', PlatformTarget_align Demo.host Demo.platform (PkgPath "/p/gen") None
          Demo.world
        = (Raise (ToolError (ZipAlignCall "/sdk/tools/zipalign" "/p/gen"
                               "/p/gen.align.1300000000.25" 4%Z true)), w')
    ∧ fs w' = Demo.disk.
Proof.
  destruct (align_in_place_failure Demo.host Demo.platform (PkgPath "/p/gen")
              None Demo.world Demo.disk eq_refl eq_refl)
    as (w' & H & Hf & _).
  exists w'. split; [exact H|exact Hf].
Defined.

(** ** More on cleaning *)

(** X16. When the output directory is a directory, [clean] returns
    having removed it and everything below it, and every other path is
    as before; no tool runs. *)
Theorem clean_removes_out_dir (self : AndroidProject.t) (w : World) :
  os.isdir_ (fs w) (AndroidProject.out_dir self) = true →
  ∃ w', AndroidProject_clean self w = (Ok tt, w')
    ∧ (∀ p, p = AndroidProject.out_dir self
            ∨ os.below (AndroidProject.out_dir self) p = true →
            fs w' !! p = None)
    ∧ (∀ p, p ≠ AndroidProject.out_dir self →
            os.below (AndroidProject.out_dir self) p = false →
            fs w' !! p = fs w !! p)
    ∧ trace w' = trace w.
Proof.
  intros Hd. set (out := AndroidProject.out_dir self) in *.
  assert (Hex : os.exists_ (fs w) out = true).
  { apply bool_decide_eq_true. apply bool_decide_eq_true in Hd.
    rewrite Hd. eauto. }
  set (w' := set_fs (filter (λ kv, kv.1 ≠ out ∧ ¬ os.below out kv.1) (fs w)) w).
  assert (Hrm : os.rmtree out w = (Ok tt, w')).
  { unfold os.rmtree. by rewrite Hd. }
  assert (Hgone : ∀ p, p = out ∨ os.below out p = true → fs w' !! p = None).
  { intros p Hp. simpl. apply map_lookup_filter_None. right.
    intros x _ [Hne Hb]. simpl in *. destruct Hp as [->|Hp]; [done|].
    apply Hb. by rewrite Hp. }
  assert (Hex' : os.exists_ (fs w') out = false).
  { apply bool_decide_eq_false. rewrite Hgone by (by left).
    by intros [x Hx]. }
  exists w'. split.
  { unfold AndroidProject_clean. fold out. rewrite bind_run.
    unfold os.path_exists at 1, gets at 1. rewrite Hex.
    rewrite bind_run, Hrm. rewrite bind_run.
    unfold os.path_exists, gets. by rewrite Hex'. }
  split; [done|]. split; [|done].
  intros p Hne Hb. simpl.
  destruct (fs w !! p) as [x|] eqn:E.
  - apply map_lookup_filter_Some. split; [done|]. simpl. split; [done|].
    rewrite Hb. auto.
  - apply map_lookup_filter_None. by left.
Qed.

Lemma clean_removes_out_dir_witness :
  ∃ w', AndroidProject_clean Demo.project Demo.world = (Ok tt, w')
    ∧ fs w' !! "/p/bin/app.apk" = None
    ∧ fs w' !! "/p/src/Main.java" = Some (File "class Main {}").
Proof.
  destruct (clean_removes_out_dir Demo.project Demo.world eq_refl)
    as (w' & H & Hgone & Hkept & _).
  exists w'. split; [exact H|]. split.
  - apply Hgone. right. vm_compute. reflexivity.
  - rewrite Hkept; [vm_compute; reflexivity|done|vm_compute; reflexivity].
Defined.

(** What [build] has before it packages: the project itself when it
    holds a [code], else the project with the [code] of a compile. *)
Lemma build_compile_step (host : Host) (self self0 : AndroidProject.t)
    (w w0 : World) :
  match AndroidProject.code self with
  | Some _ => mret self
  | None => r ← AndroidProject_compile host self; mret r.2
  end w = (Ok self0, w0) →
  (is_Some (AndroidProject.code self) ∧ self0 = self ∧ w0 = w)
  ∨ (AndroidProject.code self = None
     ∧ ∃ c, self0 = AndroidProject.set_code c self
            ∧ AndroidProject_compile host self w = (Ok (None, self0), w0)).
Proof.
  destruct (AndroidProject.code self) as [c0|] eqn:Ec.
  - intros [= <- <-]. left. eauto.
  - intros H. right. split; [done|].
    apply bind_Ok_inv in H as ([v s] & w1 & E & H). injection H as <- <-.
    destruct (project_compile_returns_None _ _ _ _ _ _ E)
      as (-> & c & _ & _ & ->).
    exists c. done.
Qed.

(** X17. The aapt run by which a returning [build] packages the
    resources starts on the disk as it is once the code is there: the
    disk [build] was called on when the project held a [code], the disk
    its compile left otherwise.  On that disk the run succeeded; its
    command is [package], overwriting is forced, the platform's library
    is the one include, the manifest, resource directory and
    configuration are the project's and the caller's, and the asset
    directory is passed exactly when it is on that disk. *)
Theorem build_resource_call (host : Host) (self self' : AndroidProject.t)
    (output config : option string) (w w' : World) (apk : Apk.t) :
  AndroidProject_build host self output config w = (Ok (apk, self'), w') →
  let w0 := match AndroidProject.code self with
            | Some _ => w
            | None => (AndroidProject_compile host self w).2
            end in
  ∃ kw rest,
    trace w' = trace w0
      ++ [AaptCall (PlatformTarget.aapt (AndroidProject.platform self)) kw;
          rest]
    ∧ (run_tool host
         (AaptCall (PlatformTarget.aapt (AndroidProject.platform self)) kw)
         (fs w0)).1 = true
    ∧ aapt_command kw = "package"
    ∧ aapt_overwrite kw = Some true
    ∧ aapt_manifest kw = AndroidProject.manifest self
    ∧ aapt_resource_dir kw = AndroidProject.resource_dir self
    ∧ aapt_include kw
      = [PlatformTarget.framework_library (AndroidProject.platform self)]
    ∧ aapt_configurations kw = config
    ∧ aapt_asset_dir kw
      = if os.exists_ (fs w0) (AndroidProject.asset_dir self)
           && negb (bool_decide (AndroidProject.asset_dir self = ""))
        then Some (AndroidProject.asset_dir self) else None.
Proof.
  unfold AndroidProject_build. intros H.
  apply bind_Ok_inv in H as (self0 & w0 & E0 & H).
  apply build_compile_step in E0.
  assert (Hsame : AndroidProject.platform self0 = AndroidProject.platform self
                  ∧ AndroidProject.manifest self0 = AndroidProject.manifest self
                  ∧ AndroidProject.resource_dir self0
                    = AndroidProject.resource_dir self
                  ∧ AndroidProject.asset_dir self0
                    = AndroidProject.asset_dir self).
  { destruct E0 as [(_ & -> & _)|(_ & c & -> & _)]; done. }
  destruct Hsame as (Hp & Hm & Hr & Ha).
  assert (Hw0 : match AndroidProject.code self with
                | Some _ => w
                | None => (AndroidProject_compile host self w).2
                end = w0).
  { destruct E0 as [([x Hx] & _ & ->)|(Hn & c & _ & Hc)].
    - by rewrite Hx.
    - by rewrite Hn, Hc. }
  cbv zeta. rewrite Hw0.
  apply bind_Ok_inv in H as (ex & w1 & E1 & H).
  unfold os.path_exists, gets in E1. injection E1 as <- <-.
  apply bind_Ok_inv in H as (r & w1 & E1 & H).
  assert (Hrun : ∃ kw,
    kw = pack_resources_args (AndroidProject.platform self0)
           (AndroidProject.manifest self0) (AndroidProject.resource_dir self0)
           (if os.exists_ (fs w0) (AndroidProject.asset_dir self0)
            then Some (AndroidProject.asset_dir self0) else None)
           (path.abspath (cwd w0)
              (if negb (truthy config)
               then path.join (AndroidProject.out_dir self0)
                      (AndroidProject.name self0 +:+ ".ap_")
               else path.join (AndroidProject.out_dir self0)
                      (AndroidProject.name self0 +:+ "." +:+ default "" config
                       +:+ ".ap_")))
           config
    ∧ trace w1 = trace w0
        ++ [AaptCall (PlatformTarget.aapt (AndroidProject.platform self0)) kw]
    ∧ (run_tool host
         (AaptCall (PlatformTarget.aapt (AndroidProject.platform self0)) kw)
         (fs w0)).1 = true).
  { unfold PlatformTarget_pack_resources in E1.
    apply bind_Ok_inv in E1 as (o & w2 & Eo & E1).
    unfold gets in Eo. injection Eo as <- <-.
    apply bind_Ok_inv in E1 as (u & w2 & Ei & E1).
    apply invoke_Ok in Ei as (Ht & _ & Hr').
    injection E1 as <- <-. eexists. split; [reflexivity|].
    split; [exact Ht|]. unfold pack_resources_args. by rewrite Hr'. }
  destruct Hrun as (kw & Hkw & T1 & Hr1).
  apply bind_Ok_inv in H as (c & w2 & E2 & H).
  destruct (AndroidProject.code self0) as [c'|] eqn:Ec; [|discriminate].
  injection E2 as <- <-.
  apply bind_Ok_inv in H as (a & w3 & E3 & H).
  apply build_apk_Ok in E3 as (_ & _ & T3 & _).
  injection H as <- <- <-.
  rewrite Hp, Hm, Hr, Ha in *.
  exists kw. eexists. split.
  { rewrite T3, T1, <- app_assoc. reflexivity. }
  split; [exact Hr1|]. subst kw.
  repeat (split; [reflexivity|]). simpl.
  destruct (os.exists_ (fs w0) (AndroidProject.asset_dir self)); [|done].
  simpl. by destruct (bool_decide (AndroidProject.asset_dir self = "")).
Qed.

Lemma build_resource_call_witness :
  let w := set_fs (<["/p/asset" := Dir]> Demo.disk) Demo.world in
  ∃ apk self' w' kw rest,
    AndroidProject_build Demo.host Demo.project None None w
    = (Ok (apk, self'), w')
    ∧ trace w'
      = trace (AndroidProject_compile Demo.host Demo.project w).2
        ++ [AaptCall "/sdk/platform-tools/aapt" kw; rest]
    ∧ aapt_overwrite kw = Some true
    ∧ aapt_asset_dir kw = Some "/p/asset".
Proof.
  intros w.
  set (r := AndroidProject_build Demo.host Demo.project None None w).
  assert (H : ∃ apk self', r = (Ok (apk, self'), r.2))
    by (do 2 eexists; vm_compute; reflexivity).
  destruct H as (apk & self' & H).
  destruct (build_resource_call Demo.host Demo.project self' None None w r.2
              apk H)
    as (kw & rest & Ht & _ & _ & Ho & _ & _ & _ & _ & Ha).
  exists apk, self', r.2, kw, rest.
  split; [exact H|]. split; [exact Ht|]. split; [exact Ho|].
  etransitivity; [exact Ha|]. vm_compute. reflexivity.
Defined.

(** ** Failing stages *)

(** X18. The composite compile stops at the first stage that raises:
    it raises the same exception and leaves the world as that stage
    left it, so no later stage has run. *)
Theorem compile_fail_fast (host : Host) (self : PlatformTarget.t)
    (dex_output manifest source_dir resource_dir source_gen_dir
       class_gen_dir : string)
    (debug : option bool) (target : option string) (w : World) (e : exn) :
  let generate_r :=
    PlatformTarget_generate_r host self manifest resource_dir source_gen_dir in
  let compile_aidl :=
    PlatformTarget_compile_aidl host self source_dir source_gen_dir in
  let compile_java :=
    PlatformTarget_compile_java host self [source_dir; source_gen_dir]
      class_gen_dir (default false debug) (default "1.5" target) in
  let dex := PlatformTarget_dex host self class_gen_dir dex_output in
  let compile :=
    PlatformTarget_compile host self dex_output manifest source_dir
      resource_dir source_gen_dir class_gen_dir debug target in
  (∀ w1, generate_r w = (Raise e, w1) → compile w = (Raise e, w1))
  ∧ (∀ w1 w2, generate_r w = (Ok tt, w1) → compile_aidl w1 = (Raise e, w2) →
       compile w = (Raise e, w2))
  ∧ (∀ w1 w2 w3, generate_r w = (Ok tt, w1) → compile_aidl w1 = (Ok tt, w2) →
       compile_java w2 = (Raise e, w3) → compile w = (Raise e, w3))
  ∧ (∀ w1 w2 w3 w4, generate_r w = (Ok tt, w1) →
       compile_aidl w1 = (Ok tt, w2) → compile_java w2 = (Ok tt, w3) →
       dex w3 = (Raise e, w4) → compile w = (Raise e, w4)).
Proof.
  cbv zeta. unfold PlatformTarget_compile. repeat split.
  - intros w1 H1. by rewrite bind_run, H1.
  - intros w1 w2 H1 H2. by rewrite bind_run, H1, bind_run, H2.
  - intros w1 w2 w3 H1 H2 H3.
    by rewrite bind_run, H1, bind_run, H2, bind_run, H3.
  - intros w1 w2 w3 w4 H1 H2 H3 H4.
    by rewrite bind_run, H1, bind_run, H2, bind_run, H3, H4.
Qed.

(** A host whose Java compiler always fails. *)
Definition failing_javac_host : Host :=
  {| sys_platform := "linux2";
     run_tool := fun c f =>
       match c with
       | JavaCCall _ _ _ _ _ _ => (false, f)
       | _ => Demo.tools c f
       end;
     xml_root_attrib := xml_root_attrib Demo.host |}.

Lemma compile_fail_fast_witness :
  ∃ c w',
    PlatformTarget_compile failing_javac_host Demo.platform
      "/p/bin/classes.dex" "/p/AndroidManifest.xml" "/p/src" "/p/res"
      "/p/gen" "/p/bin/classes" None None Demo.world
    = (Raise (ToolError c), w')
    ∧ is_javac c = true
    ∧ count_javac (trace w') = 1
    ∧ fs w' !! "/p/bin/classes.dex" = None.
Proof.
  set (g := PlatformTarget_generate_r failing_javac_host Demo.platform
              "/p/AndroidManifest.xml" "/p/res" "/p/gen" Demo.world).
  set (a := PlatformTarget_compile_aidl failing_javac_host Demo.platform
              "/p/src" "/p/gen" g.2).
  set (j := PlatformTarget_compile_java failing_javac_host Demo.platform
              ["/p/src"; "/p/gen"] "/p/bin/classes" false "1.5" a.2).
  assert (Hg : g = (Ok tt, g.2)) by (vm_compute; reflexivity).
  assert (Ha : a = (Ok tt, a.2)) by (vm_compute; reflexivity).
  assert (Hj : ∃ c, j = (Raise (ToolError c), j.2) ∧ is_javac c = true)
    by (eexists; split; vm_compute; reflexivity).
  destruct Hj as (c & Hj & Hc).
  destruct (compile_fail_fast failing_javac_host Demo.platform
              "/p/bin/classes.dex" "/p/AndroidManifest.xml" "/p/src" "/p/res"
              "/p/gen" "/p/bin/classes" None None Demo.world (ToolError c))
    as (_ & _ & H3 & _).
  exists c, j.2. split; [exact (H3 g.2 a.2 j.2 Hg Ha Hj)|].
  split; [exact Hc|]. split; vm_compute; reflexivity.
Defined.

(** ** Signing *)

(** X19. [sign] runs the signer exactly once, on the package's file with
    the keystore, alias and password it was given, and returns [None]
    or raises according to that run alone; signing through an [Apk] is
    signing its file with its own platform. *)
Theorem sign_runs_jarsigner (host : Host) (self : PlatformTarget.t)
    (apk : pkg) (keystore alias password : string) (w : World) :
  let call := JarSignerCall (PlatformTarget.jarsigner self)
                (pkg_filename apk) keystore alias password in
  let r := PlatformTarget_sign host self apk keystore alias password w in
  trace r.2 = trace w ++ [call]
  ∧ fs r.2 = (run_tool host call (fs w)).2
  ∧ r.1 = (if (run_tool host call (fs w)).1 then Ok tt
           else Raise (ToolError call))
  ∧ ∀ a : Apk.t,
      Apk_sign host a keystore alias password w
      = PlatformTarget_sign host (Apk.platform a) (PkgPath (Apk.filename a))
          keystore alias password w.
Proof.
  cbv zeta. unfold PlatformTarget_sign, invoke.
  destruct (run_tool host _ (fs w)) as [[] f']; done.
Qed.
